(** * The code-review orchestrator (orchestrator/main.py), embedded in Rocq

    The orchestrator is a Python script: it selects files, runs two static
    analyzers on them, gathers their findings into one list, asks a local
    model service for four kinds of text and appends the results to a
    markdown report.

    Modelling conventions.
    - Values that come out of [json.loads] (analyzer output, rule store,
      response bodies) and the finding dictionaries built by [main] are
      values of [json]; a dictionary is an association list in insertion
      order, looked up by its first matching key.  JSON floats are not
      represented.
    - A Python call either returns or raises: [result].  Stateful code runs
      in the monad [M], which threads the [World] (clock, console, report
      file, patch files, the module-level [ai_usage_log], and a trace of the
      external calls made) and reads the outside world from an [Env].
    - [time.time()] is counted in hundredths of a second, so that the
      [:.2f] format of a duration is exact.  Only external calls (a
      subprocess, an HTTP request) take time.
    - Strings are byte strings (UTF-8 as in the source file).  [strip] and
      [repr] treat the ASCII range as Python does and leave other bytes
      alone. *)

From Stdlib Require Import ZArith List String Ascii Bool Lia DecimalString.
Import ListNotations.
Open Scope string_scope.

(** ** Python values and the built-ins the script relies on *)

Module Py.

#[local] Unset Elimination Schemes.
Inductive json : Type :=
| JNull
| JBool (b : bool)
| JNum (n : Z)
| JStr (s : string)
| JArr (items : list json)
| JObj (fields : list (string * json)).
#[local] Set Elimination Schemes.

Inductive exn : Type :=
| AttributeError
| TypeError
| KeyError
| JSONDecodeError
| ConnectionError
| OSError.

Inductive result (A : Type) : Type :=
| Ok (a : A)
| Raise (e : exn).

Arguments Ok {A} a.
Arguments Raise {A} e.

Definition rbind {A B} (r : result A) (k : A -> result B) : result B :=
  match r with
  | Ok a => k a
  | Raise e => Raise e
  end.

(** [for x in xs: acc = f(acc, x)] where the body may raise. *)
Fixpoint rfold {A B} (f : A -> B -> result A) (xs : list B) (acc : A)
  : result A :=
  match xs with
  | [] => Ok acc
  | x :: rest => rbind (f acc x) (rfold f rest)
  end.

(** [[f(x) for x in xs]] where [f] may raise. *)
Fixpoint rmap {A B} (f : A -> result B) (xs : list A) : result (list B) :=
  match xs with
  | [] => Ok []
  | x :: rest =>
      rbind (f x) (fun y => rbind (rmap f rest) (fun ys => Ok (y :: ys)))
  end.

Definition LF : string := String "010" EmptyString.
Definition DQUOTE : ascii := "034"%char.
Definition SQUOTE : ascii := "039"%char.
Definition BACKSLASH : ascii := "092"%char.

(** [str(n)] for an integer. *)
Definition str_of_Z (z : Z) : string := NilZero.string_of_int (Z.to_int z).

Definition rev_string (s : string) : string :=
  string_of_list_ascii (rev (list_ascii_of_string s)).

(** [str.isspace] on the ASCII range.  Python also counts Unicode blanks
    (U+00A0, U+2003, U+3000 and others) as space; here their bytes are
    ordinary characters. *)
Definition is_space (c : ascii) : bool :=
  let n := nat_of_ascii c in
  ((9 <=? n) && (n <=? 13) || (28 <=? n) && (n <=? 32))%nat.

Fixpoint lstrip (s : string) : string :=
  match s with
  | EmptyString => EmptyString
  | String c rest => if is_space c then lstrip rest else s
  end.

Definition strip (s : string) : string :=
  rev_string (lstrip (rev_string (lstrip s))).

Definition endswith (s suffix : string) : bool :=
  let n := String.length s in
  let m := String.length suffix in
  ((m <=? n)%nat && String.eqb (substring (n - m) m s) suffix).

Fixpoint contains_substr (sub s : string) : bool :=
  prefix sub s ||
  match s with
  | EmptyString => false
  | String _ rest => contains_substr sub rest
  end.

Fixpoint string_mem (c : ascii) (s : string) : bool :=
  match s with
  | EmptyString => false
  | String d rest => Ascii.eqb c d || string_mem c rest
  end.

(** [repr] of a string: single quotes unless the text has a single quote
    and no double quote; backslash, the quote and control characters are
    escaped. *)
Definition hex_digit (n : nat) : ascii :=
  nth n (list_ascii_of_string "0123456789abcdef") "0"%char.

Definition repr_char (q c : ascii) : string :=
  let n := nat_of_ascii c in
  if Ascii.eqb c BACKSLASH then String BACKSLASH (String BACKSLASH "")
  else if Ascii.eqb c q then String BACKSLASH (String q "")
  else if (n =? 9)%nat then String BACKSLASH "t"
  else if (n =? 10)%nat then String BACKSLASH "n"
  else if (n =? 13)%nat then String BACKSLASH "r"
  else if ((n <? 32) || (n =? 127))%nat then
    String BACKSLASH
      (String "x" (String (hex_digit (n / 16)) (String (hex_digit (n mod 16)) "")))
  else String c "".

Fixpoint repr_chars (q : ascii) (s : string) : string :=
  match s with
  | EmptyString => EmptyString
  | String c rest => repr_char q c ++ repr_chars q rest
  end.

Definition repr_str (s : string) : string :=
  let q := if string_mem SQUOTE s && negb (string_mem DQUOTE s)
           then DQUOTE else SQUOTE in
  String q (repr_chars q s ++ String q "").

Fixpoint py_repr (v : json) : string :=
  match v with
  | JNull => "None"
  | JBool true => "True"
  | JBool false => "False"
  | JNum n => str_of_Z n
  | JStr s => repr_str s
  | JArr items => "[" ++ String.concat ", " (map py_repr items) ++ "]"
  | JObj fields =>
      "{" ++ String.concat ", "
               (map (fun kv => repr_str (fst kv) ++ ": " ++ py_repr (snd kv))
                    fields) ++ "}"
  end.

(** [str(v)], which is what an f-string placeholder prints. *)
Definition py_str (v : json) : string :=
  match v with
  | JStr s => s
  | _ => py_repr v
  end.

(** Truth value of an object, as [if v:] tests it. *)
Definition truthy (v : json) : bool :=
  match v with
  | JNull => false
  | JBool b => b
  | JNum n => negb (n =? 0)%Z
  | JStr s => negb (String.eqb s "")
  | JArr items => match items with [] => false | _ => true end
  | JObj fields => match fields with [] => false | _ => true end
  end.

Fixpoint lookup (k : string) (fields : list (string * json)) : option json :=
  match fields with
  | [] => None
  | (k', v) :: rest => if String.eqb k k' then Some v else lookup k rest
  end.

(** [d.get(k, default)]; only a dictionary has the method. *)
Definition get (d : json) (k : string) (default : json) : result json :=
  match d with
  | JObj fields =>
      Ok (match lookup k fields with Some v => v | None => default end)
  | _ => Raise AttributeError
  end.

(** [d.get(k)] is [d.get(k, None)]. *)
Definition get1 (d : json) (k : string) : result json := get d k JNull.

Fixpoint chars_of (s : string) : list json :=
  match s with
  | EmptyString => []
  | String c rest => JStr (String c "") :: chars_of rest
  end.

(** The elements a [for] loop, [+=] or [extend] draws from an object. *)
Definition iter (v : json) : result (list json) :=
  match v with
  | JArr items => Ok items
  | JObj fields => Ok (map (fun kv => JStr (fst kv)) fields)
  | JStr s => Ok (chars_of s)
  | _ => Raise TypeError
  end.

Definition is_str (k : string) (v : json) : bool :=
  match v with
  | JStr s => String.eqb s k
  | _ => false
  end.

(** [k in v] for a string [k]. *)
Definition contains (k : string) (v : json) : result bool :=
  match v with
  | JObj fields => Ok (match lookup k fields with Some _ => true | None => false end)
  | JArr items => Ok (existsb (is_str k) items)
  | JStr s => Ok (contains_substr k s)
  | _ => Raise TypeError
  end.

(** [v[k]] for a string [k]. *)
Definition getitem (v : json) (k : string) : result json :=
  match v with
  | JObj fields =>
      match lookup k fields with
      | Some x => Ok x
      | None => Raise KeyError
      end
  | _ => Raise TypeError
  end.

(** [v.strip()]; only a string has the method. *)
Definition strip_val (v : json) : result string :=
  match v with
  | JStr s => Ok (strip s)
  | _ => Raise AttributeError
  end.

(** A duration in hundredths of a second under the format [:.2f]. *)
Definition two_digits (n : Z) : string :=
  (if (n <? 10)%Z then "0" else "") ++ str_of_Z n.

Definition fmt2f (t : Z) : string :=
  let a := Z.abs t in
  (if (t <? 0)%Z then "-" else "") ++
  str_of_Z (a / 100) ++ "." ++ two_digits (a mod 100).

(** [total * 0.0001] under the format [:.4f], for [total] in hundredths of
    a second: [total / 10^6] rounded to four decimals, halves to even.
    This is the decimal reading of the format.  Python rounds the binary
    product instead, which at an exact half can give the other neighbour
    (2.5 seconds print as 0.0003 there, as 0.0002 here); no property below
    reads the cost line. *)
Definition round_half_even (n d : Z) : Z :=
  let q := (n / d)%Z in
  let r := (n mod d)%Z in
  if (2 * r <? d)%Z then q
  else if (d <? 2 * r)%Z then (q + 1)%Z
  else if Z.even q then q else (q + 1)%Z.

Definition pad4 (n : Z) : string :=
  (if (n <? 10)%Z then "000" else if (n <? 100)%Z then "00"
   else if (n <? 1000)%Z then "0" else "") ++ str_of_Z n.

Definition fmt4f_cost (total : Z) : string :=
  let a := round_half_even (Z.abs total) 100 in
  (if (total <? 0)%Z && negb (a =? 0)%Z then "-" else "") ++
  str_of_Z (a / 10000) ++ "." ++ pad4 (a mod 10000).

End Py.

(** ** The orchestrator *)

Module Orchestrator.
Import Py.

(** *** The outside world *)

(** The five requests [main] sends to the model service. *)
Inductive call_kind : Type :=
| Narrative | AutoFix | Effort | Document | SuggestDocs.

(** What a prompt is built from: the rule set (narrative review only) and
    the text listing the findings.  The fixed wording around them is not
    reproduced. *)
Record prompt : Type := mkPrompt {
  p_rules : option json;
  p_issues : string
}.

(** External calls, in the order they are made. *)
Inductive event : Type :=
| Subprocess (cmd : list string) (cwd : option string)
| HttpPost (kind : call_kind) (model : string) (p : prompt).

(** Outcome of [requests.post]. *)
Inductive http_outcome : Type :=
| TransportFailure
| Response (status_code : Z) (text : string).

Record Env : Type := mkEnv {
  (** [os.path.exists] and [pathlib.Path.exists] *)
  path_exists : string -> bool;
  (** content of a file opened for reading *)
  file_text : string -> string;
  (** [json.loads]; [None] is a [JSONDecodeError] *)
  json_loads : string -> option json;
  (** [subprocess.run(cmd, cwd=...)]: its standard output, or [None] when
      the call itself raises *)
  proc : list string -> option string -> option string;
  (** [repo_path.rglob("*.py")] as strings *)
  rglob_py : list string;
  (** [str(pathlib.Path(p).parent)] *)
  path_parent : string -> string;
  (** [str(pathlib.Path(p).resolve())] *)
  path_resolve : string -> string;
  (** the reply to each request *)
  post : call_kind -> http_outcome;
  (** whether a file can be opened for writing *)
  can_write : string -> bool;
  (** how long an external call takes, in hundredths of a second *)
  elapsed : event -> Z;
  (** [str(e)] of a caught exception *)
  exn_text : exn -> string
}.

Record World : Type := mkWorld {
  now : Z;
  stdout : list string;
  report : option string;
  patches : list (string * string);
  ai_usage_log : list (string * Z);
  trace : list event
}.

(** *** State and exceptions *)

Definition M (A : Type) : Type := World -> result A * World.

Definition ret {A} (a : A) : M A := fun w => (Ok a, w).

Definition raise {A} (e : exn) : M A := fun w => (Raise e, w).

Definition bind {A B} (m : M A) (k : A -> M B) : M B :=
  fun w =>
    match m w with
    | (Ok a, w') => k a w'
    | (Raise e, w') => (Raise e, w')
    end.

Definition lift {A} (r : result A) : M A := fun w => (r, w).

(** [try: body  except Exception as e: handler(e)] *)
Definition try_except {A} (body : M A) (handler : exn -> M A) : M A :=
  fun w =>
    match body w with
    | (Ok a, w') => (Ok a, w')
    | (Raise e, w') => handler e w'
    end.

Declare Scope py_scope.
Delimit Scope py_scope with py.
Notation "x <- c ;; k" := (bind c (fun x => k))
  (at level 61, c at next level, right associativity) : py_scope.
Notation "c ;;; k" := (bind c (fun _ => k))
  (at level 61, right associativity) : py_scope.
Open Scope py_scope.

(** [for x in xs: acc = body(acc, x)] *)
Fixpoint for_each {A B} (body : A -> B -> M A) (xs : list B) (acc : A) : M A :=
  match xs with
  | [] => ret acc
  | x :: rest => acc' <- body acc x ;; for_each body rest acc'
  end.

Definition print (line : string) : M unit :=
  fun w => (Ok tt, mkWorld (now w) (stdout w ++ [line]) (report w)
                           (patches w) (ai_usage_log w) (trace w)).

Definition time_time : M Z := fun w => (Ok (now w), w).

(** An external call is traced and takes its time. *)
Definition perform (env : Env) (ev : event) : M unit :=
  fun w => (Ok tt, mkWorld (now w + elapsed env ev)%Z (stdout w) (report w)
                           (patches w) (ai_usage_log w) (trace w ++ [ev])).

Definition REPORT : string := "reports/review.md".

(** [path.write_text(text)] on the report: the file is replaced. *)
Definition write_report (env : Env) (text : string) : M unit :=
  fun w =>
    if can_write env REPORT
    then (Ok tt, mkWorld (now w) (stdout w) (Some text)
                         (patches w) (ai_usage_log w) (trace w))
    else (Raise OSError, w).

(** [with open("reports/review.md", "a") as f: f.write(text)] *)
Definition append_report (env : Env) (text : string) : M unit :=
  fun w =>
    if can_write env REPORT
    then (Ok tt, mkWorld (now w) (stdout w)
                         (Some (match report w with
                                | Some old => old ++ text
                                | None => text
                                end))
                         (patches w) (ai_usage_log w) (trace w))
    else (Raise OSError, w).

Definition write_patch (env : Env) (path text : string) : M unit :=
  fun w =>
    if can_write env path
    then (Ok tt, mkWorld (now w) (stdout w) (report w)
                         (patches w ++ [(path, text)]) (ai_usage_log w) (trace w))
    else (Raise OSError, w).

Definition log_ai_usage (entry : string * Z) : M unit :=
  fun w => (Ok tt, mkWorld (now w) (stdout w) (report w) (patches w)
                           (ai_usage_log w ++ [entry]) (trace w)).

Definition read_ai_usage_log : M (list (string * Z)) :=
  fun w => (Ok (ai_usage_log w), w).

(** [requests.post("http://localhost:11434/api/chat", json=payload, timeout=180)] *)
Definition requests_post (env : Env) (kind : call_kind) (model : string)
    (p : prompt) : M (Z * string) :=
  perform env (HttpPost kind model p) ;;;
  match post env kind with
  | TransportFailure => raise ConnectionError
  | Response status_code text => ret (status_code, text)
  end.

(** [response.json()] *)
Definition response_json (env : Env) (text : string) : M json :=
  match json_loads env text with
  | Some data => ret data
  | None => raise JSONDecodeError
  end.

(** [data.get("message", {}).get("content", "").strip()] *)
Definition message_content (data : json) : result string :=
  rbind (get data "message" (JObj [])) (fun m =>
  rbind (get m "content" (JStr "")) strip_val).

(** *** Helper functions *)

Definition track_ai_usage (action_name : string) (start_time : Z) : M unit :=
  t <- time_time ;;
  let duration := (t - start_time)%Z in
  log_ai_usage (action_name, duration) ;;;
  print ("Tracked AI usage for " ++ action_name ++ ": " ++ fmt2f duration ++ "s").

Definition RULES_PATH : string := "rules/custom_rules.json".

Definition load_custom_rules (env : Env) : M json :=
  if path_exists env RULES_PATH then
    match json_loads env (file_text env RULES_PATH) with
    | Some rules => ret rules
    | None => raise JSONDecodeError
    end
  else ret (JObj []).

Definition timed_section {A} (label : string) (func : M A) : M (A * Z) :=
  print ("Starting: " ++ label ++ " ...") ;;;
  start <- time_time ;;
  result <- func ;;
  t <- time_time ;;
  let duration := (t - start)%Z in
  print ("Finished " ++ label ++ " in " ++ fmt2f duration ++ " seconds.") ;;;
  ret (result, duration).

(** [subprocess.run(cmd, cwd=cwd, capture_output=True, text=True).stdout] *)
Definition subprocess_run (env : Env) (cmd : list string) (cwd : option string)
  : M string :=
  perform env (Subprocess cmd cwd) ;;;
  match proc env cmd cwd with
  | Some out => ret out
  | None => raise OSError
  end.

Definition run_command (env : Env) (cmd : list string) (cwd : option string)
  : M string :=
  out <- subprocess_run env cmd cwd ;;
  ret (strip out).

(** [str.splitlines], for the line boundaries of the ASCII range.  Python
    also splits at U+0085, U+2028 and U+2029; here their bytes stay inside
    the line. *)
Definition is_linebreak (c : ascii) : bool :=
  let n := nat_of_ascii c in
  ((10 <=? n) && (n <=? 13) || (28 <=? n) && (n <=? 30))%nat.

Fixpoint splitlines_from (cur s : string) : list string :=
  match s with
  | EmptyString => if String.eqb cur "" then [] else [cur]
  | String c rest =>
      if is_linebreak c then
        cur :: match rest with
               | String d rest' =>
                   if Ascii.eqb c "013"%char && Ascii.eqb d "010"%char
                   then splitlines_from "" rest'
                   else splitlines_from "" rest
               | EmptyString => []
               end
      else splitlines_from (cur ++ String c "") rest
  end.

Definition splitlines (s : string) : list string := splitlines_from "" s.

Definition get_changed_files (env : Env) : M (list string) :=
  try_except
    (out <- subprocess_run env ["git"; "diff"; "--name-only"; "HEAD"] None ;;
     ret (map strip (filter (fun f => endswith f ".py") (splitlines out))))
    (fun e =>
       print ("Error getting changed files: " ++ exn_text env e) ;;;
       ret []).

Definition run_ruff (env : Env) (repo_path : string) : M json :=
  print "Running Ruff..." ;;;
  output <- run_command env ["ruff"; "check"; "--output-format"; "json"; "."]
                        (Some repo_path) ;;
  match json_loads env output with
  | Some parsed => ret parsed
  | None => ret (JArr [])
  end.

Definition run_bandit (env : Env) (repo_path : string) : M json :=
  print "Running Bandit..." ;;;
  output <- run_command env ["bandit"; "-r"; "."; "-f"; "json"] (Some repo_path) ;;
  match json_loads env output with
  | Some parsed => ret parsed
  | None => ret (JObj [])
  end.

Definition required_dirs : list string := ["orchestrator"; "sample"; "reports"].

Definition check_architecture_structure (env : Env) : M (list string) :=
  print "Performing architecture structure check..." ;;;
  let missing := filter (fun d => negb (path_exists env d)) required_dirs in
  match missing with
  | _ :: _ =>
      ret ["Missing expected module directories: " ++ String.concat ", " missing]
  | [] => ret ["Project structure follows modular architecture."]
  end.

(** *** Requests to the model service *)

Definition MODEL : string := "qwen2.5-coder:0.5b".

(** One line of [issues_text]:
    [f"- {f.get('message', f)} (in {f.get('filename', 'unknown file')})"] *)
Definition issue_line (f : json) : result string :=
  rbind (get f "message" f) (fun message =>
  rbind (get f "filename" (JStr "unknown file")) (fun filename =>
  Ok ("- " ++ py_str message ++ " (in " ++ py_str filename ++ ")"))).

Definition issues_text (findings : list json) : result string :=
  rbind (rmap issue_line findings) (fun lines => Ok (String.concat LF lines)).

Definition http_error_line (status_code : Z) (text : string) : string :=
  "Ollama returned error " ++ str_of_Z status_code ++ ": " ++ text.

Definition analyze_with_llm (env : Env) (custom_rules : json)
    (findings : list json) (model : string) : M string :=
  start_time <- time_time ;;
  print "Analyzing findings with local LLM..." ;;;
  issues <- lift (match findings with
                  | [] => Ok "No issues were found, but please review the code quality overall."
                  | _ :: _ => issues_text findings
                  end) ;;
  response <- requests_post env Narrative model (mkPrompt (Some custom_rules) issues) ;;
  let '(status_code, text) := response in
  if negb (status_code =? 200)%Z then
    print (http_error_line status_code text) ;;;
    ret "Error: LLM could not generate a response."
  else
    data <- response_json env text ;;
    track_ai_usage "analyze_with_llm" start_time ;;;
    lift (message_content data).

Definition generate_auto_fix (env : Env) (findings : list json) (model : string)
  : M (option string) :=
  start_time <- time_time ;;
  match findings with
  | [] => ret None
  | _ :: _ =>
      print "Generating automatic fixes with LLM..." ;;;
      issues <- lift (issues_text findings) ;;
      try_except
        (response <- requests_post env AutoFix model (mkPrompt None issues) ;;
         let '(status_code, text) := response in
         if negb (status_code =? 200)%Z then
           print (http_error_line status_code text) ;;;
           ret None
         else
           data <- response_json env text ;;
           patch_text <- lift (message_content data) ;;
           t <- time_time ;;
           let patch_path :=
             "patches/auto_fix_" ++ str_of_Z (Z.quot t 100) ++ ".diff" in
           write_patch env patch_path patch_text ;;;
           print ("Auto-fix patch saved to: " ++ patch_path) ;;;
           ret (Some patch_path))
        (fun e =>
           print ("Error while generating auto-fix: " ++ exn_text env e) ;;;
           track_ai_usage "generate_auto_fix" start_time ;;;
           ret None)
  end.

Definition NO_EFFORT : string := "No issues found, no effort required.".

Definition estimate_effort (env : Env) (findings : list json) (model : string)
  : M string :=
  start_time <- time_time ;;
  match findings with
  | [] => ret NO_EFFORT
  | _ :: _ =>
      print "Estimating development effort with LLM..." ;;;
      issues <- lift (issues_text findings) ;;
      try_except
        (response <- requests_post env Effort model (mkPrompt None issues) ;;
         let '(status_code, text) := response in
         if negb (status_code =? 200)%Z then
           print (http_error_line status_code text) ;;;
           ret "Effort estimation unavailable (error from LLM)."
         else
           data <- response_json env text ;;
           effort_text <- lift (message_content data) ;;
           print "Effort estimation complete." ;;;
           ret effort_text)
        (fun e =>
           print ("Error while estimating effort: " ++ exn_text env e) ;;;
           track_ai_usage "estimate_effort" start_time ;;;
           ret "Error while estimating effort.")
  end.

(** *** Report sections *)

Definition RULE : string := LF ++ LF ++ "---" ++ LF.

(** [enumerate(xs, start)] *)
Fixpoint enumerate {A} (start : Z) (xs : list A) : list (Z * A) :=
  match xs with
  | [] => []
  | x :: rest => (start, x) :: enumerate (start + 1)%Z rest
  end.

(** The three fixed lines that close an entry of the developer-response
    section: two unchecked boxes and the comment placeholder. *)
Definition ENTRY_BOXES : string :=
  "   - [ ] Fixed" ++ LF ++
  "   - [ ] Not applicable" ++ LF ++
  "   - **Comment:** _Write your reply here..._" ++ LF ++ LF.

Definition entry_head (i : Z) (filename line : json) (message : string) : string :=
  str_of_Z i ++ ". **" ++ py_str filename ++ ", line " ++ py_str line ++
  "** â€“ " ++ message ++ LF.

(** The text one turn of the loop adds to [section]. *)
Definition comment_entry (i : Z) (f : json) : result string :=
  rbind (get f "filename" (JStr "unknown file")) (fun filename =>
  rbind (get f "line" (JStr "?")) (fun line =>
  rbind (rbind (get f "message" (JStr "")) strip_val) (fun message =>
  Ok (entry_head i filename line message ++ ENTRY_BOXES)))).

Definition SECTION_HEAD : string := RULE ++ "### Developer Responses" ++ LF.

Definition comment_section (findings : list json) : result string :=
  rfold (fun section (p : Z * json) =>
           rbind (comment_entry (fst p) (snd p)) (fun entry =>
           Ok (section ++ entry)))
        (enumerate 1 findings) SECTION_HEAD.

Definition add_comment_section (env : Env) (findings : list json) : M unit :=
  match findings with
  | [] => ret tt
  | _ :: _ =>
      print "Adding developer comment section to report..." ;;;
      section <- lift (comment_section findings) ;;
      append_report env section ;;;
      print " Developer comment section added."
  end.

(** [f"- {f.get('message', f)} (File: {f.get('filename', 'unknown')}, line {f.get('line', '?')})"] *)
Definition doc_line (f : json) : result string :=
  rbind (get f "message" f) (fun message =>
  rbind (get f "filename" (JStr "unknown")) (fun filename =>
  rbind (get f "line" (JStr "?")) (fun line =>
  Ok ("- " ++ py_str message ++ " (File: " ++ py_str filename ++
      ", line " ++ py_str line ++ ")")))).

(** The body of [try] yields [true] when it leaves the function by
    [return], so that the statement after the [try] is skipped. *)
Definition document_findings (env : Env) (findings : list json) (model : string)
  : M unit :=
  start_time <- time_time ;;
  match findings with
  | [] => print "No findings to document."
  | _ :: _ =>
      print "Generating documentation for findings..." ;;;
      let sample_findings := firstn 10 findings in
      findings_text <- lift (rbind (rmap doc_line sample_findings) (fun lines =>
                             Ok (String.concat LF lines))) ;;
      returned <-
        try_except
          (response <- requests_post env Document model (mkPrompt None findings_text) ;;
           let '(status_code, text) := response in
           if negb (status_code =? 200)%Z then
             print (http_error_line status_code text) ;;;
             ret true
           else
             data <- response_json env text ;;
             doc_text <- lift (message_content data) ;;
             append_report env (RULE ++ "### Documentation for Findings" ++ LF ++ doc_text) ;;;
             print "Documentation for findings added to report." ;;;
             ret false)
          (fun e =>
             print ("Error while documenting findings: " ++ exn_text env e) ;;;
             ret false) ;;
      if returned : bool then ret tt
      else track_ai_usage "document_findings" start_time
  end.

Definition suggest_doc_updates (env : Env) (findings : list json) (model : string)
  : M unit :=
  start_time <- time_time ;;
  match findings with
  | [] => ret tt
  | _ :: _ =>
      print "Suggesting documentation updates..." ;;;
      issues <- lift (issues_text (firstn 10 findings)) ;;
      returned <-
        try_except
          (response <- requests_post env SuggestDocs model (mkPrompt None issues) ;;
           let '(status_code, text) := response in
           if negb (status_code =? 200)%Z then
             print (http_error_line status_code text) ;;;
             ret true
           else
             data <- response_json env text ;;
             doc_update_text <- lift (message_content data) ;;
             append_report env
               (RULE ++ "### ðŸª¶ Suggested Documentation Updates" ++ LF ++
                doc_update_text) ;;;
             print "Suggested documentation updates added." ;;;
             ret false)
          (fun e =>
             print ("Error suggesting documentation updates: " ++ exn_text env e) ;;;
             ret false) ;;
      if returned : bool then ret tt
      else track_ai_usage "suggest_doc_updates" start_time
  end.

(** [save_report(report_text, "reports")]: the directory is created when
    needed and the report file replaced. *)
Definition save_report (env : Env) (report_text : string) : M unit :=
  write_report env report_text ;;;
  print ("Report saved to: " ++ path_resolve env REPORT).

(** *** Main orchestration *)

(** STEP 1.  [mode in ("file", "file_specific") and file_target]: the
    target counts when it is a non-empty string. *)
Definition explicit_target (mode : string) (file_target : option string)
  : option string :=
  if String.eqb mode "file" || String.eqb mode "file_specific" then
    match file_target with
    | Some p => if String.eqb p "" then None else Some p
    | None => None
    end
  else None.

(** The files to analyze, or [None] where [main] returns at once. *)
Definition select_files (env : Env) (mode : string) (file_target : option string)
  : M (option (list string)) :=
  match explicit_target mode file_target with
  | Some p =>
      if negb (path_exists env p) then
        print ("File not found: " ++ p) ;;;
        ret None
      else
        print ("Running analysis for single file: " ++ p) ;;;
        ret (Some [p])
  | None =>
      if String.eqb mode "incremental" then
        changed_files <- get_changed_files env ;;
        match changed_files with
        | _ :: _ =>
            print ("Detected changed files: " ++
                   py_repr (JArr (map JStr changed_files))) ;;;
            ret (Some changed_files)
        | [] =>
            print "No changed files detected. Skipping analysis." ;;;
            ret None
        end
      else
        let changed_files := rglob_py env in
        print ("Running full analysis on " ++
               str_of_Z (Z.of_nat (List.length changed_files)) ++ " files...") ;;;
        ret (Some changed_files)
  end.

(** The variables the loop of STEP 2 updates: [performance_stats],
    [all_ruff_results] and [all_bandit_results["results"]]. *)
Record analysis : Type := mkAnalysis {
  performance_stats : list (string * Z);
  all_ruff_results : list json;
  all_bandit_results : list json
}.

(** STEP 2, one turn of the loop. *)
Definition analyze_file (env : Env) (acc : analysis) (file_path : string)
  : M analysis :=
  let file_dir := path_parent env file_path in
  print ("Analyzing " ++ file_path ++ " ...") ;;;
  r <- timed_section "Ruff Analysis" (run_ruff env file_dir) ;;
  let '(ruff_output, ruff_time) := r in
  let stats := (performance_stats acc ++ [("Ruff", ruff_time)])%list in
  ruff_items <- lift (iter ruff_output) ;;
  let ruff := (all_ruff_results acc ++ ruff_items)%list in
  b <- timed_section "Bandit Analysis" (run_bandit env file_dir) ;;
  let '(bandit_output, bandit_time) := b in
  let stats := (stats ++ [("Bandit", bandit_time)])%list in
  has_results <- lift (contains "results" bandit_output) ;;
  if has_results : bool then
    results <- lift (getitem bandit_output "results") ;;
    bandit_items <- lift (iter results) ;;
    ret (mkAnalysis stats ruff (all_bandit_results acc ++ bandit_items)%list)
  else ret (mkAnalysis stats ruff (all_bandit_results acc)).

Definition run_analyzers (env : Env) (changed_files : list string) : M analysis :=
  for_each (analyze_file env) changed_files (mkAnalysis [] [] []).

(** STEP 3.  The dictionary built for one Ruff message. *)
Definition ruff_finding (item msg : json) : result json :=
  rbind (get1 item "filename") (fun filename =>
  rbind (get1 msg "message") (fun message =>
  rbind (rbind (get msg "location" (JObj [])) (fun loc => get1 loc "row"))
        (fun line =>
  Ok (JObj [("tool", JStr "ruff"); ("filename", filename);
            ("message", message); ("line", line)])))).

Definition bandit_finding (issue : json) : result json :=
  rbind (get1 issue "filename") (fun filename =>
  rbind (get1 issue "issue_text") (fun message =>
  rbind (get1 issue "line_number") (fun line =>
  Ok (JObj [("tool", JStr "bandit"); ("filename", filename);
            ("message", message); ("line", line)])))).

Definition architecture_finding (note : string) : json :=
  JObj [("tool", JStr "architecture"); ("filename", JStr "project");
        ("message", JStr note); ("line", JNum 0)].

(** [for item in all_ruff_results: for msg in item.get("messages", []): ...] *)
Definition gather_ruff (ruff : list json) (findings : list json)
  : result (list json) :=
  rfold (fun findings item =>
           rbind (get item "messages" (JArr [])) (fun messages =>
           rbind (iter messages) (fun msgs =>
           rfold (fun findings msg =>
                    rbind (ruff_finding item msg) (fun f => Ok (findings ++ [f])%list))
                 msgs findings)))
        ruff findings.

Definition gather_bandit (bandit : list json) (findings : list json)
  : result (list json) :=
  rfold (fun findings issue =>
           rbind (bandit_finding issue) (fun f => Ok (findings ++ [f])%list))
        bandit findings.

Definition gather_architecture (notes : list string) (findings : list json)
  : list json :=
  fold_left (fun findings note => (findings ++ [architecture_finding note])%list)
            notes findings.

(** STEP 3 as a whole: the list [findings] as it stands at line 451. *)
Definition gather_findings (env : Env) (a : analysis) : M (list json) :=
  findings <- lift (gather_ruff (all_ruff_results a) []) ;;
  findings <- lift (gather_bandit (all_bandit_results a) findings) ;;
  architecture_notes <- check_architecture_structure env ;;
  ret (gather_architecture architecture_notes findings).

(** STEPS 2 and 3 in sequence. *)
Definition collect_findings (env : Env) (changed_files : list string)
  : M (analysis * list json) :=
  a <- run_analyzers env changed_files ;;
  findings <- gather_findings env a ;;
  ret (a, findings).

Definition total (log : list (string * Z)) : Z :=
  fold_left (fun acc p => (acc + snd p)%Z) log 0%Z.

Definition timing_lines (log : list (string * Z)) : string :=
  String.concat ""
    (map (fun p => "- " ++ fst p ++ ": " ++ fmt2f (snd p) ++ " seconds" ++ LF) log).

(** STEPS 4 to 10 and the two summaries. *)
Definition review_and_report (env : Env) (custom_rules : json)
    (stats : list (string * Z)) (findings : list json) : M unit :=
  print ("Collected " ++ str_of_Z (Z.of_nat (List.length findings)) ++
         " issues total.") ;;;
  r <- timed_section "AI Analysis" (analyze_with_llm env custom_rules findings MODEL) ;;
  let '(ai_review, ai_time) := r in
  let stats := (stats ++ [("AI Review", ai_time)])%list in
  save_report env ai_review ;;;
  r <- timed_section "Generate Auto Fix" (generate_auto_fix env findings MODEL) ;;
  let stats := (stats ++ [("Auto Fix", snd r)])%list in
  r <- timed_section "Effort Estimation" (estimate_effort env findings MODEL) ;;
  let '(effort_text, effort_time) := r in
  let stats := (stats ++ [("Effort Estimation", effort_time)])%list in
  append_report env (RULE ++ "### Effort Estimation" ++ LF ++ effort_text) ;;;
  add_comment_section env findings ;;;
  r <- timed_section "Document Findings" (document_findings env findings MODEL) ;;
  let stats := (stats ++ [("Document Findings", snd r)])%list in
  append_report env
    (RULE ++ "### Coding Guideline Awareness" ++ LF ++
     "This review follows **PEP8** and **Google Python Style Guide** recommendations as enforced by Ruff." ++ LF) ;;;
  r <- timed_section "Suggest Documentation Updates"
                     (suggest_doc_updates env findings MODEL) ;;
  let stats := (stats ++ [("Doc Updates", snd r)])%list in
  let total_time := total stats in
  append_report env
    (RULE ++ "### Performance Summary" ++ LF ++ timing_lines stats ++
     LF ++ "**Total execution time:** " ++ fmt2f total_time ++ " seconds" ++ LF) ;;;
  log <- read_ai_usage_log ;;
  match log with
  | _ :: _ =>
      let total_ai_time := total log in
      append_report env
        (RULE ++ "### AI Cost Management" ++ LF ++ timing_lines log ++
         LF ++ "**Total AI time:** " ++ fmt2f total_ai_time ++ " seconds" ++ LF ++
         "**Simulated cost:** $" ++ fmt4f_cost total_ai_time ++ LF) ;;;
      print ("Total AI processing time: " ++ fmt2f total_ai_time ++
             "s (simulated cost: $" ++ fmt4f_cost total_ai_time ++ ")")
  | [] => ret tt
  end ;;;
  print "Code review complete!".

Definition main (env : Env) (custom_rules : json) (mode : string)
    (file_target : option string) : M unit :=
  print "Starting AI Code Review Assistant..." ;;;
  selected <- select_files env mode file_target ;;
  match selected with
  | None => ret tt
  | Some changed_files =>
      c <- collect_findings env changed_files ;;
      review_and_report env custom_rules (performance_stats (fst c)) (snd c)
  end.

(** The command line, [argv] being [sys.argv[1:]]: the last
    [--mode=incremental] or [--file=...] argument decides the mode. *)
Definition parse_args (argv : list string) : string * option string :=
  fold_left
    (fun (st : string * option string) arg =>
       if String.eqb arg "--mode=incremental" then ("incremental", snd st)
       else if prefix "--file=" arg
            then ("file", Some (substring 7 (String.length arg - 7) arg))
            else st)
    argv ("full", None).

(** The script run as a program: the module body, then the
    [if __name__ == "__main__"] block. *)
Definition script (env : Env) (argv : list string) : M unit :=
  custom_rules <- load_custom_rules env ;;
  (if truthy custom_rules then print "Applying custom coding rules..." else ret tt) ;;;
  let '(mode, file_target) := parse_args argv in
  print ("Running orchestrator in mode: " ++ mode) ;;;
  match file_target with
  | Some p => if String.eqb p "" then ret tt else print ("Target file: " ++ p)
  | None => ret tt
  end ;;;
  main env custom_rules mode file_target.

(** *** A concrete run

    One target file, [sample/app.py]; Ruff reports two messages for it and
    Bandit one issue.  The analyzers' output and the replies of the model
    service are named by short tokens that [json_loads] resolves. *)

Definition ruff_output_demo : json :=
  JArr [JObj [("filename", JStr "sample/app.py");
              ("messages",
               JArr [JObj [("message", JStr "unused import");
                           ("location", JObj [("row", JNum 1)])];
                     JObj [("message", JStr "line too long");
                           ("location", JObj [("row", JNum 7)])]])]].

Definition bandit_output_demo : json :=
  JObj [("results",
         JArr [JObj [("filename", JStr "sample/app.py");
                     ("issue_text", JStr "use of eval");
                     ("line_number", JNum 3)]])].

Definition reply_demo : json :=
  JObj [("message", JObj [("content", JStr " looks fine ")])].

Definition json_loads_demo (s : string) : option json :=
  if String.eqb s "ruff.json" then Some ruff_output_demo
  else if String.eqb s "bandit.json" then Some bandit_output_demo
  else if String.eqb s "reply.json" then Some reply_demo
  else if String.eqb s "rules.json" then Some (JObj [("rules", JArr [JStr "no eval"])])
  else None.

Definition proc_demo (cmd : list string) (cwd : option string) : option string :=
  match cmd with
  | "ruff" :: _ => Some ("ruff.json" ++ LF)
  | "bandit" :: _ => Some ("bandit.json" ++ LF)
  | _ => Some ""
  end.

Definition elapsed_demo (ev : event) : Z :=
  match ev with
  | Subprocess _ _ => 25%Z
  | HttpPost _ _ _ => 130%Z
  end.

(** The environment of the run, given which paths exist, what the rule
    store holds and how the model service answers. *)
Definition demo_env (present : string -> bool) (rules_text : string)
    (reply : call_kind -> http_outcome) : Env :=
  mkEnv present (fun _ => rules_text) json_loads_demo proc_demo
        ["sample/app.py"] (fun _ => "sample") (fun p => "/repo/" ++ p)
        reply (fun _ => true) elapsed_demo (fun _ => "failed").

(** Every path exists but the rule store and [sample/gone.py]. *)
Definition present_demo (p : string) : bool :=
  negb (String.eqb p RULES_PATH || String.eqb p "sample/gone.py").

(** Everything in place and the service answering. *)
Definition healthy_env : Env :=
  demo_env present_demo "" (fun _ => Response 200 "reply.json").

(** The service cannot be reached. *)
Definition offline_env : Env :=
  demo_env present_demo "" (fun _ => TransportFailure).

(** The rule store exists and holds text that is not JSON. *)
Definition bad_rules_env : Env :=
  demo_env (fun _ => true) "{rules: " (fun _ => Response 200 "reply.json").

(** Only [reports] is there; [orchestrator] and [sample] are missing. *)
Definition bare_env : Env :=
  demo_env (fun p => String.eqb p "reports") ""
           (fun _ => Response 200 "reply.json").

Definition world0 : World := mkWorld 170000000000%Z [] None [] [] [].

Definition demo_findings : list json :=
  [JObj [("tool", JStr "ruff"); ("filename", JStr "sample/app.py");
         ("message", JStr "unused import"); ("line", JNum 1)];
   JObj [("tool", JStr "ruff"); ("filename", JStr "sample/app.py");
         ("message", JStr "line too long"); ("line", JNum 7)];
   JObj [("tool", JStr "bandit"); ("filename", JStr "sample/app.py");
         ("message", JStr "use of eval"); ("line", JNum 3)];
   architecture_finding "Project structure follows modular architecture."].

(** The findings of the same run where only [reports] exists. *)
Definition demo_findings_bare : list json :=
  firstn 3 demo_findings ++
  [architecture_finding "Missing expected module directories: orchestrator, sample"].

(** Number of places where [sub] occurs in [s]. *)
Fixpoint count_substr (sub s : string) : nat :=
  (if prefix sub s then 1 else 0) +
  match s with
  | EmptyString => 0
  | String _ rest => count_substr sub rest
  end.

(** *** The aggregation order as the specification words it

    The findings of a run are, in this order: the Analyzer-A (Ruff)
    findings, file by file in processing order; the Analyzer-B (Bandit)
    findings, likewise; the architecture notes.  Analyzer A nests its
    messages under per-file records and gives the line as the row of a
    location record; Analyzer B gives a flat list of results with the line
    as a field of its own. *)

(** The field [k] of a record, [None] when it is missing. *)
Definition field (k : string) (d : json) : json :=
  match d with
  | JObj fields =>
      match lookup k fields with
      | Some v => v
      | None => JNull
      end
  | _ => JNull
  end.

(** The elements of a list-like value; nothing when it has none. *)
Definition elements (v : json) : list json :=
  match iter v with
  | Ok items => items
  | Raise _ => []
  end.

Definition finding (tool : string) (filename message line : json) : json :=
  JObj [("tool", JStr tool); ("filename", filename);
        ("message", message); ("line", line)].

Definition analyzer_a_findings (items : list json) : list json :=
  flat_map (fun item =>
              map (fun msg =>
                     finding "ruff" (field "filename" item) (field "message" msg)
                             (field "row" (field "location" msg)))
                  (elements (field "messages" item)))
           items.

Definition analyzer_b_findings (issues : list json) : list json :=
  map (fun issue =>
         finding "bandit" (field "filename" issue) (field "issue_text" issue)
                 (field "line_number" issue))
      issues.

(** What each analyzer reports for one file: the parsed output of the
    process run in the directory of the file. *)
Definition parsed_output (env : Env) (cmd : list string) (fallback : json)
    (file_path : string) : json :=
  match proc env cmd (Some (path_parent env file_path)) with
  | Some out =>
      match json_loads env (strip out) with
      | Some parsed => parsed
      | None => fallback
      end
  | None => fallback
  end.

Definition ruff_items (env : Env) (file_path : string) : list json :=
  elements (parsed_output env ["ruff"; "check"; "--output-format"; "json"; "."]
                          (JArr []) file_path).

Definition bandit_items (env : Env) (file_path : string) : list json :=
  elements (field "results"
              (parsed_output env ["bandit"; "-r"; "."; "-f"; "json"]
                             (JObj []) file_path)).

(** The one note of the architecture check. *)
Definition architecture_note (env : Env) : string :=
  match filter (fun d => negb (path_exists env d)) required_dirs with
  | [] => "Project structure follows modular architecture."
  | missing => "Missing expected module directories: " ++ String.concat ", " missing
  end.

Definition aggregated (env : Env) (changed_files : list string) : list json :=
  (analyzer_a_findings (flat_map (ruff_items env) changed_files) ++
   analyzer_b_findings (flat_map (bandit_items env) changed_files) ++
   [finding "architecture" (JStr "project") (JStr (architecture_note env)) (JNum 0)])%list.

Definition has_tool (tool : string) (f : json) : Prop :=
  get1 f "tool" = Ok (JStr tool).

(** Output of the shape the analyzers document: Analyzer A prints an array
    of records whose [messages], when given, is an array of records with
    an optional [location] record; Analyzer B prints a record whose
    [results], when given, is an array of records. *)
Definition is_dict (v : json) : bool :=
  match v with
  | JObj _ => true
  | _ => false
  end.

Definition conforming_message (msg : json) : bool :=
  match msg with
  | JObj fields =>
      match lookup "location" fields with
      | None | Some (JObj _) => true
      | Some _ => false
      end
  | _ => false
  end.

Definition conforming_item (item : json) : bool :=
  match item with
  | JObj fields =>
      match lookup "messages" fields with
      | None => true
      | Some (JArr msgs) => forallb conforming_message msgs
      | Some _ => false
      end
  | _ => false
  end.

Definition conforming_ruff (output : json) : bool :=
  match output with
  | JArr items => forallb conforming_item items
  | _ => false
  end.

Definition conforming_bandit (output : json) : bool :=
  match output with
  | JObj fields =>
      match lookup "results" fields with
      | None => true
      | Some (JArr issues) => forallb is_dict issues
      | Some _ => false
      end
  | _ => false
  end.

Definition RUFF_CMD : list string := ["ruff"; "check"; "--output-format"; "json"; "."].
Definition BANDIT_CMD : list string := ["bandit"; "-r"; "."; "-f"; "json"].

(** Both analyzers start for the file and print conforming output (or
    text that is not JSON, which counts as no findings). *)
Definition conforming (env : Env) (file_path : string) : bool :=
  let cwd := Some (path_parent env file_path) in
  match proc env RUFF_CMD cwd, proc env BANDIT_CMD cwd with
  | Some _, Some _ =>
      conforming_ruff (parsed_output env RUFF_CMD (JArr []) file_path)
      && conforming_bandit (parsed_output env BANDIT_CMD (JObj []) file_path)
  | _, _ => false
  end.

(** The value of an optional field: itself when present, [None] when not. *)
Definition or_none (v : option json) : json :=
  match v with
  | Some x => x
  | None => JNull
  end.

(** *** The developer-response section as the specification words it

    One numbered entry per finding, in the order of the list: file, line
    and message, two unchecked boxes and the comment placeholder. *)

(** The field [k] of a record, [default] when it is missing. *)
Definition field_or (k : string) (default : json) (d : json) : json :=
  match d with
  | JObj fields =>
      match lookup k fields with
      | Some v => v
      | None => default
      end
  | _ => default
  end.

(** The message of a finding when it is a text (or missing: the empty
    text); a finding with any other message cannot be rendered. *)
Definition text_message (f : json) : option string :=
  match f with
  | JObj fields =>
      match lookup "message" fields with
      | Some (JStr s) => Some s
      | Some _ => None
      | None => Some ""
      end
  | _ => None
  end.

Definition has_text_message (f : json) : bool :=
  match text_message f with
  | Some _ => true
  | None => false
  end.

Definition response_entry (i : Z) (f : json) : string :=
  entry_head i (field_or "filename" (JStr "unknown file") f)
             (field_or "line" (JStr "?") f)
             (strip (match text_message f with Some m => m | None => "" end))
  ++ ENTRY_BOXES.

(** The texts of a list, one after another. *)
Definition concat_all (texts : list string) : string :=
  fold_right String.append "" texts.

Definition response_entries (findings : list json) : list string :=
  map (fun p => response_entry (fst p) (snd p)) (enumerate 1 findings).

(** The state of the run once the findings are gathered. *)
Definition demo_analysis : analysis :=
  mkAnalysis [("Ruff", 25%Z); ("Bandit", 25%Z)]
             (elements ruff_output_demo)
             (elements (field "results" bandit_output_demo)).

Definition demo_collected : World :=
  mkWorld 170000000050%Z
          ["Analyzing sample/app.py ...";
           "Starting: Ruff Analysis ..."; "Running Ruff...";
           "Finished Ruff Analysis in 0.25 seconds.";
           "Starting: Bandit Analysis ..."; "Running Bandit...";
           "Finished Bandit Analysis in 0.25 seconds.";
           "Performing architecture structure check..."]
          None [] []
          [Subprocess ["ruff"; "check"; "--output-format"; "json"; "."] (Some "sample");
           Subprocess ["bandit"; "-r"; "."; "-f"; "json"] (Some "sample")].

(** *** Vocabulary for the properties of whole stages *)

Definition GIT_CMD : list string := ["git"; "diff"; "--name-only"; "HEAD"].

(** The report is only ever extended between [w] and [w']: what it held
    is still there, at the front. *)
Definition report_kept (w w' : World) : Prop :=
  forall old, report w = Some old ->
              exists more, report w' = Some (old ++ more).

(** Nothing outside the console and the clock differs between [w] and [w']
    but the trace, which grew by [events]. *)
Definition only_called (events : list event) (w w' : World) : Prop :=
  trace w' = (trace w ++ events)%list
  /\ report w' = report w
  /\ patches w' = patches w
  /\ ai_usage_log w' = ai_usage_log w.

(** The narrative request gets an answer [analyze_with_llm] can return:
    any status but 200, or status 200 with a body of the expected shape. *)
Definition narrative_answers (env : Env) : bool :=
  match post env Narrative with
  | TransportFailure => false
  | Response status_code text =>
      if (status_code =? 200)%Z then
        match json_loads env text with
        | Some data =>
            match message_content data with
            | Ok _ => true
            | Raise _ => false
            end
        | None => false
        end
      else true
  end.

(** The two subprocesses [main] starts for one file. *)
Definition analyzer_calls (env : Env) (file_path : string) : list event :=
  [Subprocess RUFF_CMD (Some (path_parent env file_path));
   Subprocess BANDIT_CMD (Some (path_parent env file_path))].

(** *** More concrete runs *)

(** Both analyzers print a Python traceback instead of JSON. *)
Definition garbled_env : Env :=
  mkEnv present_demo (fun _ => "") json_loads_demo
        (fun _ _ => Some ("Traceback (most recent call last):"))
        ["sample/app.py"] (fun _ => "sample") (fun p => "/repo/" ++ p)
        (fun _ => Response 200 "reply.json") (fun _ => true) elapsed_demo
        (fun _ => "failed").

(** Ruff is not installed: starting it fails. *)
Definition no_ruff_env : Env :=
  mkEnv present_demo (fun _ => "") json_loads_demo
        (fun cmd cwd => match cmd with
                        | "ruff" :: _ => None
                        | _ => proc_demo cmd cwd
                        end)
        ["sample/app.py"] (fun _ => "sample") (fun p => "/repo/" ++ p)
        (fun _ => Response 200 "reply.json") (fun _ => true) elapsed_demo
        (fun _ => "failed").

(** The world of the healthy run after STEP 2. *)
Definition demo_analyzed : World :=
  mkWorld 170000000050%Z
          ["Analyzing sample/app.py ...";
           "Starting: Ruff Analysis ..."; "Running Ruff...";
           "Finished Ruff Analysis in 0.25 seconds.";
           "Starting: Bandit Analysis ..."; "Running Bandit...";
           "Finished Bandit Analysis in 0.25 seconds."]
          None [] []
          [Subprocess ["ruff"; "check"; "--output-format"; "json"; "."] (Some "sample");
           Subprocess ["bandit"; "-r"; "."; "-f"; "json"] (Some "sample")].

(** The service answers the narrative request and then goes away. *)
Definition offline_docs_env : Env :=
  demo_env present_demo ""
           (fun kind => match kind with
                        | Narrative => Response 200 "reply.json"
                        | AutoFix => Response 503 "unavailable"
                        | _ => TransportFailure
                        end).

(** The report cannot be opened for writing. *)
Definition read_only_env : Env :=
  mkEnv present_demo (fun _ => "") json_loads_demo proc_demo
        ["sample/app.py"] (fun _ => "sample") (fun p => "/repo/" ++ p)
        (fun _ => Response 200 "reply.json")
        (fun p => negb (String.eqb p REPORT)) elapsed_demo (fun _ => "failed").

(** [git diff] lists three changed files, one of them not Python, one
    with a name the terminal indented. *)
Definition changed_env : Env :=
  mkEnv present_demo (fun _ => "") json_loads_demo
        (fun cmd cwd => match cmd with
                        | "git" :: _ =>
                            Some ("sample/app.py" ++ LF ++ "README.md" ++ LF ++
                                  "  tools/lint.py" ++ LF)
                        | _ => proc_demo cmd cwd
                        end)
        ["sample/app.py"] (fun _ => "sample") (fun p => "/repo/" ++ p)
        (fun _ => Response 200 "reply.json") (fun _ => true) elapsed_demo
        (fun _ => "failed").

(** The empty path does not exist (nor does the rule store); everything
    else does. *)
Definition empty_target_env : Env :=
  demo_env (fun p => negb (String.eqb p RULES_PATH || String.eqb p ""))
           "" (fun _ => Response 200 "reply.json").

(** Ruff reports one message for a record without [filename], and the
    message has a code and a location but no [message] text. *)
Definition ruff_output_sparse : json :=
  JArr [JObj [("messages",
               JArr [JObj [("code", JStr "F401");
                           ("location", JObj [("row", JNum 1)])]])]].

Definition sparse_env : Env :=
  mkEnv present_demo (fun _ => "")
        (fun s => if String.eqb s "ruff.json" then Some ruff_output_sparse
                  else json_loads_demo s)
        proc_demo
        ["sample/app.py"] (fun _ => "sample") (fun p => "/repo/" ++ p)
        (fun _ => Response 200 "reply.json") (fun _ => true) elapsed_demo
        (fun _ => "failed").

(** ** Properties *)

(** *** Equations of the monad *)

Lemma bind_ok {A B} (m : M A) (k : A -> M B) (w w' : World) (a : A) :
  m w = (Ok a, w') -> bind m k w = k a w'.
Proof. intros H. unfold bind. rewrite H. reflexivity. Qed.

Lemma bind_raise {A B} (m : M A) (k : A -> M B) (w w' : World) (e : exn) :
  m w = (Raise e, w') -> bind m k w = (Raise e, w').
Proof. intros H. unfold bind. rewrite H. reflexivity. Qed.

(** *** Empty findings (C6) *)

(** C6.  With no findings, [estimate_effort] returns the fixed sentence and
    [generate_auto_fix] returns [None]; neither touches the world, so no
    request is sent and no patch file is written. *)
Theorem empty_findings_bypass_service (env : Env) (model : string) (w : World) :
  estimate_effort env [] model w = (Ok "No issues found, no effort required.", w)
  /\ generate_auto_fix env [] model w = (Ok None, w).
Proof. split; reflexivity. Qed.

(** *** A missing explicit target (C4) *)

(** C4, as stated, fails: with [--file=] the mode is [file] and the target
    is the empty path, which does not exist; the guard of STEP 1 takes it
    for no target, and [main] runs a full analysis to its end, with seven
    external calls and a report written. *)
Lemma single_file_empty_target_counterexample :
  parse_args ["--file="] = ("file", Some "")
  /\ path_exists empty_target_env "" = false
  /\ fst (main empty_target_env (JObj []) "file" (Some "") world0) = Ok tt
  /\ List.length (trace (snd (main empty_target_env (JObj []) "file" (Some "") world0)))
     = 7%nat
  /\ report (snd (main empty_target_env (JObj []) "file" (Some "") world0))
     <> report world0.
Proof.
  split; [reflexivity|]. split; [reflexivity|].
  split; [vm_compute; reflexivity|].
  split; [vm_compute; reflexivity|].
  destruct (report (snd (main empty_target_env (JObj []) "file" (Some "") world0)))
    as [text|] eqn:Hreport; [discriminate|].
  vm_compute in Hreport. discriminate.
Qed.

(** C4, amended.  In single-file mode with a non-empty target path that
    does not exist, [main] reports the missing file on the console and
    returns at once, normally and without raising: the trace of external
    calls, the report, the patch files and the usage log are as before. *)
Theorem main_missing_target_aborts (env : Env) (custom_rules : json)
    (mode p : string) (w : World) :
  mode = "file" \/ mode = "file_specific" ->
  p <> "" ->
  path_exists env p = false ->
  main env custom_rules mode (Some p) w =
  (Ok tt,
   mkWorld (now w)
           ((stdout w ++ ["Starting AI Code Review Assistant..."]) ++
            ["File not found: " ++ p])
           (report w) (patches w) (ai_usage_log w) (trace w)).
Proof.
  intros Hmode Hp Hmissing.
  assert (Htarget : explicit_target mode (Some p) = Some p).
  { unfold explicit_target.
    apply String.eqb_neq in Hp. rewrite Hp.
    destruct Hmode as [-> | ->]; reflexivity. }
  unfold main, select_files. rewrite Htarget, Hmissing.
  reflexivity.
Qed.

(** An empty target is no target: the guard of STEP 1 lets the run go on
    as a full analysis. *)
Example empty_target_is_no_target :
  explicit_target "file" (Some "") = None
  /\ fst (select_files healthy_env "file" (Some "") world0) = Ok (Some ["sample/app.py"]).
Proof. split; reflexivity. Qed.

Lemma main_missing_target_aborts_witness :
  main healthy_env (JObj []) "file" (Some "sample/gone.py") world0 =
  (Ok tt,
   mkWorld 170000000000%Z
           ["Starting AI Code Review Assistant...";
            "File not found: sample/gone.py"]
           None [] [] []).
Proof.
  apply (main_missing_target_aborts healthy_env (JObj []) "file"
           "sample/gone.py" world0).
  - left; reflexivity.
  - discriminate.
  - reflexivity.
Defined.

(** *** The rule store (C5) *)

Lemma load_custom_rules_absent (env : Env) (w : World) :
  path_exists env RULES_PATH = false ->
  load_custom_rules env w = (Ok (JObj []), w).
Proof. intros H. unfold load_custom_rules. rewrite H. reflexivity. Qed.

Lemma load_custom_rules_well_formed (env : Env) (rules : json) (w : World) :
  path_exists env RULES_PATH = true ->
  json_loads env (file_text env RULES_PATH) = Some rules ->
  load_custom_rules env w = (Ok rules, w).
Proof. intros H1 H2. unfold load_custom_rules. rewrite H1, H2. reflexivity. Qed.

(** C5.  A rule store that exists and does not hold JSON makes
    [load_custom_rules] raise [JSONDecodeError]; as the module body calls
    it, the script stops there whatever its arguments, before [main]. *)
Theorem load_custom_rules_malformed_raises (env : Env) (w : World) :
  path_exists env RULES_PATH = true ->
  json_loads env (file_text env RULES_PATH) = None ->
  load_custom_rules env w = (Raise JSONDecodeError, w)
  /\ forall argv, script env argv w = (Raise JSONDecodeError, w).
Proof.
  intros Hexists Hbad.
  assert (Hload : load_custom_rules env w = (Raise JSONDecodeError, w)).
  { unfold load_custom_rules. rewrite Hexists, Hbad. reflexivity. }
  split; [exact Hload|].
  intros argv. unfold script. apply bind_raise. exact Hload.
Qed.

Lemma load_custom_rules_malformed_raises_witness :
  load_custom_rules bad_rules_env world0 = (Raise JSONDecodeError, world0)
  /\ forall argv, script bad_rules_env argv world0 = (Raise JSONDecodeError, world0).
Proof.
  apply (load_custom_rules_malformed_raises bad_rules_env world0); reflexivity.
Defined.

(** *** The service out of reach (C1) *)

Ltac run :=
  cbv beta iota zeta delta
      [bind ret raise lift try_except print time_time perform requests_post
       response_json track_ai_usage log_ai_usage timed_section write_patch
       append_report write_report save_report read_ai_usage_log
       now stdout report patches ai_usage_log trace fst snd].

(** With the service out of reach the narrative request raises: either
    building the prompt fails first, or [requests.post] does. *)
Lemma analyze_with_llm_offline (env : Env) (custom_rules : json)
    (findings : list json) (model : string) (w : World) :
  post env Narrative = TransportFailure ->
  exists e w',
    analyze_with_llm env custom_rules findings model w = (Raise e, w')
    /\ report w' = report w.
Proof.
  intros Hpost. unfold analyze_with_llm.
  destruct findings as [|f rest].
  - run. rewrite Hpost. eexists _, _. split; reflexivity.
  - destruct (issues_text (f :: rest)) as [s|e] eqn:Hissues.
    + run. rewrite Hpost. eexists _, _. split; reflexivity.
    + run. eexists _, _. split; reflexivity.
Qed.

(** C1.  When the request for the narrative review meets a transport
    failure, [analyze_with_llm] raises instead of returning a sentinel, and
    the rest of [main] raises with it: no report is written. *)
Theorem narrative_transport_failure_raises (env : Env) (custom_rules : json)
    (stats : list (string * Z)) (findings : list json) (w : World) :
  post env Narrative = TransportFailure ->
  (exists e w', analyze_with_llm env custom_rules findings MODEL w = (Raise e, w'))
  /\ (exists e w',
        review_and_report env custom_rules stats findings w = (Raise e, w')
        /\ report w' = report w).
Proof.
  intros Hpost. split.
  - destruct (analyze_with_llm_offline env custom_rules findings MODEL w Hpost)
      as (e & w' & H & _).
    exists e, w'. exact H.
  - unfold review_and_report.
    match goal with
    | |- context [analyze_with_llm env custom_rules findings MODEL] =>
        pose proof (fun w1 =>
          analyze_with_llm_offline env custom_rules findings MODEL w1 Hpost) as Hllm
    end.
    unfold bind at 1. unfold print at 1.
    unfold bind at 1. unfold timed_section.
    unfold bind at 1. unfold print at 1.
    unfold bind at 1. unfold time_time at 1.
    unfold bind at 1.
    match goal with
    | |- context [analyze_with_llm env custom_rules findings MODEL ?w1] =>
        destruct (Hllm w1) as (e & w' & Hrun & Hreport); rewrite Hrun
    end.
    exists e, w'. split; [reflexivity | exact Hreport].
Qed.

Lemma narrative_transport_failure_raises_witness :
  (exists e w',
     analyze_with_llm offline_env (JObj []) demo_findings MODEL world0 = (Raise e, w'))
  /\ (exists e w',
        review_and_report offline_env (JObj []) [] demo_findings world0 = (Raise e, w')
        /\ report w' = report world0).
Proof.
  apply (narrative_transport_failure_raises offline_env (JObj []) [] demo_findings world0).
  reflexivity.
Defined.

(** The other requests are wrapped in [try]: a transport failure is
    caught and a sentinel returned. *)
Lemma generate_auto_fix_offline (env : Env) (findings : list json)
    (issues model : string) (w : World) :
  issues_text findings = Ok issues ->
  post env AutoFix = TransportFailure ->
  fst (generate_auto_fix env findings model w) = Ok None.
Proof.
  intros Hissues Hpost. unfold generate_auto_fix.
  destruct findings as [|f rest]; [reflexivity|].
  run. rewrite Hissues, Hpost. reflexivity.
Qed.

Lemma estimate_effort_offline (env : Env) (f : json) (rest : list json)
    (issues model : string) (w : World) :
  issues_text (f :: rest) = Ok issues ->
  post env Effort = TransportFailure ->
  fst (estimate_effort env (f :: rest) model w) = Ok "Error while estimating effort.".
Proof.
  intros Hissues Hpost. unfold estimate_effort.
  run. rewrite Hissues, Hpost. reflexivity.
Qed.

Lemma document_findings_offline (env : Env) (findings : list json)
    (lines : list string) (model : string) (w : World) :
  rmap doc_line (firstn 10 findings) = Ok lines ->
  post env Document = TransportFailure ->
  fst (document_findings env findings model w) = Ok tt.
Proof.
  intros Hlines Hpost. unfold document_findings.
  destruct findings as [|f rest]; [reflexivity|].
  run. rewrite Hlines. cbv beta iota delta [rbind]. rewrite Hpost. reflexivity.
Qed.

Lemma suggest_doc_updates_offline (env : Env) (findings : list json)
    (issues model : string) (w : World) :
  issues_text (firstn 10 findings) = Ok issues ->
  post env SuggestDocs = TransportFailure ->
  fst (suggest_doc_updates env findings model w) = Ok tt.
Proof.
  intros Hissues Hpost. unfold suggest_doc_updates.
  destruct findings as [|f rest]; [reflexivity|].
  run. rewrite Hissues, Hpost. reflexivity.
Qed.

(** A status other than 200 gives a sentinel in all five functions. *)
Lemma analyze_with_llm_bad_status (env : Env) (custom_rules f : json)
    (rest : list json) (issues model text : string) (status_code : Z) (w : World) :
  issues_text (f :: rest) = Ok issues ->
  post env Narrative = Response status_code text ->
  status_code <> 200%Z ->
  fst (analyze_with_llm env custom_rules (f :: rest) model w)
  = Ok "Error: LLM could not generate a response."
  /\ ai_usage_log (snd (analyze_with_llm env custom_rules (f :: rest) model w))
     = ai_usage_log w.
Proof.
  intros Hissues Hpost Hstatus. apply Z.eqb_neq in Hstatus.
  unfold analyze_with_llm.
  run. rewrite Hissues, Hpost. run. rewrite Hstatus.
  split; reflexivity.
Qed.

Lemma generate_auto_fix_bad_status (env : Env) (findings : list json)
    (issues model text : string) (status_code : Z) (w : World) :
  issues_text findings = Ok issues ->
  post env AutoFix = Response status_code text ->
  status_code <> 200%Z ->
  fst (generate_auto_fix env findings model w) = Ok None.
Proof.
  intros Hissues Hpost Hstatus. apply Z.eqb_neq in Hstatus.
  unfold generate_auto_fix.
  destruct findings as [|f rest]; [reflexivity|].
  run. rewrite Hissues, Hpost. run. rewrite Hstatus. reflexivity.
Qed.

Lemma estimate_effort_bad_status (env : Env) (f : json) (rest : list json)
    (issues model text : string) (status_code : Z) (w : World) :
  issues_text (f :: rest) = Ok issues ->
  post env Effort = Response status_code text ->
  status_code <> 200%Z ->
  fst (estimate_effort env (f :: rest) model w)
  = Ok "Effort estimation unavailable (error from LLM).".
Proof.
  intros Hissues Hpost Hstatus. apply Z.eqb_neq in Hstatus.
  unfold estimate_effort.
  run. rewrite Hissues, Hpost. run. rewrite Hstatus. reflexivity.
Qed.

(** The run with the service out of reach: the exception leaves the
    script and no report exists. *)
Example offline_run_raises :
  fst (script offline_env ["--file=sample/app.py"] world0) = Raise ConnectionError
  /\ report (snd (script offline_env ["--file=sample/app.py"] world0)) = None.
Proof. vm_compute. split; reflexivity. Qed.

(** *** The usage log (C9) *)

(** C9.  A request for a patch or for an effort estimate that succeeds
    (status 200, a body of the expected shape, the patch file written)
    returns its result and leaves [ai_usage_log] as it was:
    [track_ai_usage] is reached only from the exception handler. *)
Theorem successful_calls_not_tracked (env : Env) (f : json) (rest : list json)
    (issues model text_fix text_effort patch effort : string)
    (data_fix data_effort : json) (w : World) :
  issues_text (f :: rest) = Ok issues ->
  post env AutoFix = Response 200 text_fix ->
  json_loads env text_fix = Some data_fix ->
  message_content data_fix = Ok patch ->
  (forall p, can_write env p = true) ->
  post env Effort = Response 200 text_effort ->
  json_loads env text_effort = Some data_effort ->
  message_content data_effort = Ok effort ->
  (exists path,
     fst (generate_auto_fix env (f :: rest) model w) = Ok (Some path))
  /\ ai_usage_log (snd (generate_auto_fix env (f :: rest) model w)) = ai_usage_log w
  /\ fst (estimate_effort env (f :: rest) model w) = Ok effort
  /\ ai_usage_log (snd (estimate_effort env (f :: rest) model w)) = ai_usage_log w.
Proof.
  intros Hissues Hfix Hfix_json Hfix_body Hwrite Heffort Heffort_json Heffort_body.
  unfold generate_auto_fix, estimate_effort.
  run. rewrite Hissues, Hfix, Heffort. run.
  rewrite Z.eqb_refl. cbn [negb]. run.
  rewrite Hfix_json, Heffort_json. run.
  rewrite Hfix_body, Heffort_body. run.
  rewrite Hwrite.
  split; [eexists; reflexivity | repeat split].
Qed.

Lemma successful_calls_not_tracked_witness :
  (exists path,
     fst (generate_auto_fix healthy_env demo_findings MODEL world0) = Ok (Some path))
  /\ ai_usage_log (snd (generate_auto_fix healthy_env demo_findings MODEL world0)) = []
  /\ fst (estimate_effort healthy_env demo_findings MODEL world0) = Ok "looks fine"
  /\ ai_usage_log (snd (estimate_effort healthy_env demo_findings MODEL world0)) = [].
Proof.
  refine (successful_calls_not_tracked healthy_env _ _ _ MODEL "reply.json" "reply.json"
            "looks fine" "looks fine" reply_demo reply_demo world0 _ _ _ _ _ _ _ _);
    reflexivity.
Defined.

(** The usage log of a run in which every request succeeds. *)
Example healthy_run_usage_log :
  map fst (ai_usage_log (snd (script healthy_env ["--file=sample/app.py"] world0)))
  = ["analyze_with_llm"; "document_findings"; "suggest_doc_updates"].
Proof. vm_compute. reflexivity. Qed.

(** *** Gathering the findings (C2, C7, C8, C10) *)

Lemma bind_inv {A B} (m : M A) (k : A -> M B) (w w' : World) (b : B) :
  bind m k w = (Ok b, w') ->
  exists a w1, m w = (Ok a, w1) /\ k a w1 = (Ok b, w').
Proof.
  unfold bind. destruct (m w) as [[a|e] w1]; intros H.
  - exists a, w1. split; [reflexivity | exact H].
  - discriminate.
Qed.

Lemma ret_inv {A} (a b : A) (w w' : World) :
  ret a w = (Ok b, w') -> a = b /\ w = w'.
Proof. unfold ret. intros H. inversion H. split; reflexivity. Qed.

Lemma lift_inv {A} (r : result A) (a : A) (w w' : World) :
  lift r w = (Ok a, w') -> r = Ok a /\ w = w'.
Proof. unfold lift. intros H. inversion H. split; reflexivity. Qed.

Lemma rbind_inv {A B} (r : result A) (k : A -> result B) (b : B) :
  rbind r k = Ok b -> exists a, r = Ok a /\ k a = Ok b.
Proof.
  destruct r as [a|e]; simpl; intros H; [|discriminate].
  exists a. split; [reflexivity | exact H].
Qed.

Lemma iter_elements (v : json) (items : list json) :
  iter v = Ok items -> elements v = items.
Proof. intros H. unfold elements. rewrite H. reflexivity. Qed.

(** Peel the successful run [H] of a sequence down to its steps. *)
Ltac step H :=
  let a := fresh "v" in
  let w := fresh "w" in
  let H1 := fresh "Hstep" in
  apply bind_inv in H; destruct H as (a & w & H1 & H).

Lemma run_command_value (env : Env) (cmd : list string) (cwd : option string)
    (output : string) (w w' : World) :
  run_command env cmd cwd w = (Ok output, w') ->
  exists out, proc env cmd cwd = Some out /\ output = strip out.
Proof.
  unfold run_command, subprocess_run. intros H.
  step H. step Hstep.
  destruct (proc env cmd cwd) as [out|]; [|discriminate].
  apply ret_inv in Hstep as [<- _]. apply ret_inv in H as [<- _].
  exists out. split; reflexivity.
Qed.

Lemma run_ruff_value (env : Env) (file_path : string) (v : json) (w w' : World) :
  run_ruff env (path_parent env file_path) w = (Ok v, w') ->
  elements v = ruff_items env file_path.
Proof.
  unfold run_ruff, ruff_items, parsed_output. intros H.
  step H. step H.
  apply run_command_value in Hstep0 as (out & -> & ->).
  destruct (json_loads env (strip out)); apply ret_inv in H as [<- _]; reflexivity.
Qed.

Lemma run_bandit_value (env : Env) (file_path : string) (v : json) (w w' : World) :
  run_bandit env (path_parent env file_path) w = (Ok v, w') ->
  elements (field "results" v) = bandit_items env file_path.
Proof.
  unfold run_bandit, bandit_items, parsed_output. intros H.
  step H. step H.
  apply run_command_value in Hstep0 as (out & -> & ->).
  destruct (json_loads env (strip out)); apply ret_inv in H as [<- _]; reflexivity.
Qed.

Lemma timed_section_value {A} (label : string) (func : M A) (a : A) (d : Z)
    (w w' : World) :
  timed_section label func w = (Ok (a, d), w') ->
  exists w1 w2, func w1 = (Ok a, w2).
Proof.
  unfold timed_section. intros H.
  step H. step H. step H. step H. step H.
  apply ret_inv in H as [H _]. inversion H; subst.
  apply ret_inv in Hstep0 as [_ <-].
  exists w0, w2. exact Hstep1.
Qed.

(** [if "results" in out: extend(out["results"])] adds the elements of the
    field [results], and nothing when there is none. *)
Lemma bandit_results_elements (out : json) :
  match contains "results" out with
  | Ok true =>
      forall results items,
        getitem out "results" = Ok results -> iter results = Ok items ->
        elements (field "results" out) = items
  | Ok false => elements (field "results" out) = []
  | Raise _ => True
  end.
Proof.
  destruct out as [| | | |items|fields]; simpl; try exact I.
  - destruct (contains_substr "results" s); [|reflexivity].
    intros results items H. discriminate.
  - destruct (existsb (is_str "results") items); [|reflexivity].
    intros results its H. discriminate.
  - destruct (lookup "results" fields) as [v|]; [|reflexivity].
    intros results items H Hiter. inversion H; subst.
    apply iter_elements. exact Hiter.
Qed.

(** What one turn of the loop of STEP 2 adds to the two result lists. *)
Lemma analyze_file_items (env : Env) (acc a : analysis) (file_path : string)
    (w w' : World) :
  analyze_file env acc file_path w = (Ok a, w') ->
  all_ruff_results a = (all_ruff_results acc ++ ruff_items env file_path)%list
  /\ all_bandit_results a = (all_bandit_results acc ++ bandit_items env file_path)%list.
Proof.
  unfold analyze_file. intros H.
  step H. step H. destruct v0 as [ruff_output ruff_time].
  apply timed_section_value in Hstep0 as (? & ? & Hruff).
  apply run_ruff_value in Hruff.
  step H. apply lift_inv in Hstep0 as [Hiter _].
  apply iter_elements in Hiter. rewrite Hiter in Hruff. subst v0.
  step H. destruct v0 as [bandit_output bandit_time].
  apply timed_section_value in Hstep0 as (? & ? & Hbandit).
  apply run_bandit_value in Hbandit.
  step H. apply lift_inv in Hstep0 as [Hcontains _].
  pose proof (bandit_results_elements bandit_output) as Hresults.
  rewrite Hcontains in Hresults.
  destruct v0.
  - step H. step H.
    apply lift_inv in Hstep0 as [Hget _]. apply lift_inv in Hstep1 as [Hiter' _].
    apply ret_inv in H as [<- _]. simpl.
    rewrite <- Hbandit, (Hresults _ _ Hget Hiter'). split; reflexivity.
  - apply ret_inv in H as [<- _]. simpl.
    rewrite <- Hbandit, Hresults, app_nil_r. split; reflexivity.
Qed.

(** STEP 2: after the loop the two lists hold the analyzers' records, file
    by file in processing order. *)
Lemma run_analyzers_items (env : Env) (changed_files : list string) :
  forall (acc a : analysis) (w w' : World),
    for_each (analyze_file env) changed_files acc w = (Ok a, w') ->
    all_ruff_results a
    = (all_ruff_results acc ++ flat_map (ruff_items env) changed_files)%list
    /\ all_bandit_results a
       = (all_bandit_results acc ++ flat_map (bandit_items env) changed_files)%list.
Proof.
  induction changed_files as [|file_path rest IH]; intros acc a w w' H.
  - apply ret_inv in H as [<- _]. simpl. rewrite !app_nil_r. split; reflexivity.
  - simpl in H. step H.
    apply analyze_file_items in Hstep as [Hruff Hbandit].
    apply IH in H as [-> ->]. rewrite Hruff, Hbandit.
    simpl. rewrite <- !app_assoc. split; reflexivity.
Qed.

(** The dictionary built for one Ruff message, when building it succeeds. *)
Lemma ruff_finding_value (item msg f : json) :
  ruff_finding item msg = Ok f ->
  f = finding "ruff" (field "filename" item) (field "message" msg)
              (field "row" (field "location" msg)).
Proof.
  unfold ruff_finding, get1, finding. intros H.
  destruct item as [| | | | |item_fields]; try discriminate.
  destruct msg as [| | | | |msg_fields]; try discriminate.
  simpl in H. simpl.
  destruct (lookup "location" msg_fields) as [loc|].
  - destruct loc as [| | | | |loc_fields]; try discriminate.
    simpl in H. inversion H. reflexivity.
  - simpl in H. inversion H. reflexivity.
Qed.

Lemma bandit_finding_value (issue f : json) :
  bandit_finding issue = Ok f ->
  f = finding "bandit" (field "filename" issue) (field "issue_text" issue)
              (field "line_number" issue).
Proof.
  unfold bandit_finding, get1, finding. intros H.
  destruct issue as [| | | | |fields]; try discriminate.
  simpl in H. inversion H. reflexivity.
Qed.

(** The inner loop over the messages of one Ruff record. *)
Lemma gather_ruff_messages (item : json) (msgs : list json) :
  forall acc fs,
    rfold (fun findings msg =>
             rbind (ruff_finding item msg) (fun f => Ok (findings ++ [f])%list))
          msgs acc = Ok fs ->
    fs = (acc ++ map (fun msg =>
                        finding "ruff" (field "filename" item) (field "message" msg)
                                (field "row" (field "location" msg)))
                     msgs)%list.
Proof.
  induction msgs as [|msg rest IH]; intros acc fs H; simpl in H.
  - inversion H. rewrite app_nil_r. reflexivity.
  - apply rbind_inv in H as (acc' & Hstep & H).
    apply rbind_inv in Hstep as (f & Hf & Hacc).
    apply ruff_finding_value in Hf. inversion Hacc; subst.
    apply IH in H. rewrite H, <- app_assoc. reflexivity.
Qed.

Lemma gather_ruff_value (ruff : list json) :
  forall acc fs,
    gather_ruff ruff acc = Ok fs -> fs = (acc ++ analyzer_a_findings ruff)%list.
Proof.
  unfold gather_ruff.
  induction ruff as [|item rest IH]; intros acc fs H; simpl in H.
  - inversion H. simpl. rewrite app_nil_r. reflexivity.
  - apply rbind_inv in H as (acc' & Hstep & H).
    apply rbind_inv in Hstep as (messages & Hget & Hstep).
    apply rbind_inv in Hstep as (msgs & Hiter & Hmsgs).
    apply gather_ruff_messages in Hmsgs.
    apply IH in H. subst fs acc'.
    assert (Helements : elements (field "messages" item) = msgs).
    { destruct item as [| | | | |fields]; try discriminate.
      simpl in Hget. simpl.
      destruct (lookup "messages" fields) as [v|].
      - inversion Hget; subst. apply iter_elements. exact Hiter.
      - inversion Hget; subst. simpl in Hiter. inversion Hiter. reflexivity. }
    simpl. rewrite Helements, <- app_assoc. reflexivity.
Qed.

Lemma gather_bandit_value (bandit : list json) :
  forall acc fs,
    gather_bandit bandit acc = Ok fs -> fs = (acc ++ analyzer_b_findings bandit)%list.
Proof.
  unfold gather_bandit.
  induction bandit as [|issue rest IH]; intros acc fs H; simpl in H.
  - inversion H. simpl. rewrite app_nil_r. reflexivity.
  - apply rbind_inv in H as (acc' & Hstep & H).
    apply rbind_inv in Hstep as (f & Hf & Hacc).
    apply bandit_finding_value in Hf. inversion Hacc; subst.
    apply IH in H. rewrite H, <- app_assoc. reflexivity.
Qed.

(** The architecture check yields one note and only prints. *)
Lemma check_architecture_structure_value (env : Env) (w : World) :
  check_architecture_structure env w =
  (Ok [architecture_note env],
   mkWorld (now w) (stdout w ++ ["Performing architecture structure check..."])
           (report w) (patches w) (ai_usage_log w) (trace w)).
Proof.
  unfold check_architecture_structure, architecture_note.
  destruct (filter (fun d => negb (path_exists env d)) required_dirs);
    reflexivity.
Qed.

(** STEPS 2 and 3: when they complete, the findings are the aggregated
    list of the specification. *)
Lemma collect_findings_value (env : Env) (changed_files : list string)
    (a : analysis) (fs : list json) (w w' : World) :
  collect_findings env changed_files w = (Ok (a, fs), w') ->
  fs = aggregated env changed_files.
Proof.
  unfold collect_findings, run_analyzers, gather_findings. intros H.
  step H. apply run_analyzers_items in Hstep as [Hruff Hbandit].
  simpl in Hruff, Hbandit.
  step H. apply ret_inv in H as [H _]. inversion H; subst a fs. clear H.
  step Hstep. apply lift_inv in Hstep0 as [Hgr _].
  step Hstep. apply lift_inv in Hstep0 as [Hgb _].
  step Hstep. rewrite check_architecture_structure_value in Hstep0.
  inversion Hstep0; subst. clear Hstep0.
  apply ret_inv in Hstep as [<- _].
  apply gather_ruff_value in Hgr. apply gather_bandit_value in Hgb.
  subst. rewrite Hruff, Hbandit. unfold aggregated. simpl.
  rewrite <- app_assoc. reflexivity.
Qed.

(** Forward direction: outputs of the shape the analyzers document are
    gathered without an exception. *)

Lemma gather_ruff_messages_ok (item_fields : list (string * json)) (msgs : list json) :
  forallb conforming_message msgs = true ->
  forall acc,
    rfold (fun findings msg =>
             rbind (ruff_finding (JObj item_fields) msg)
                   (fun f => Ok (findings ++ [f])%list))
          msgs acc
    = Ok (acc ++ map (fun msg =>
                        finding "ruff" (field "filename" (JObj item_fields))
                                (field "message" msg)
                                (field "row" (field "location" msg)))
                     msgs)%list.
Proof.
  induction msgs as [|msg rest IH]; intros Hok acc; simpl.
  - rewrite app_nil_r. reflexivity.
  - simpl in Hok. apply andb_true_iff in Hok as [Hmsg Hrest].
    destruct msg as [| | | | |msg_fields]; try discriminate.
    unfold ruff_finding, get1. simpl. simpl in Hmsg.
    destruct (lookup "location" msg_fields) as [loc|].
    + destruct loc as [| | | | |loc_fields]; try discriminate.
      simpl. rewrite (IH Hrest), <- app_assoc. reflexivity.
    + simpl. rewrite (IH Hrest), <- app_assoc. reflexivity.
Qed.

Lemma gather_ruff_ok (ruff : list json) :
  forallb conforming_item ruff = true ->
  forall acc, gather_ruff ruff acc = Ok (acc ++ analyzer_a_findings ruff)%list.
Proof.
  unfold gather_ruff.
  induction ruff as [|item rest IH]; intros Hok acc; simpl.
  - rewrite app_nil_r. reflexivity.
  - simpl in Hok. apply andb_true_iff in Hok as [Hitem Hrest].
    destruct item as [| | | | |fields]; try discriminate.
    simpl. simpl in Hitem.
    destruct (lookup "messages" fields) as [messages|].
    + destruct messages as [| | | |msgs|]; try discriminate.
      simpl. rewrite (gather_ruff_messages_ok fields msgs Hitem). simpl.
      rewrite (IH Hrest), <- app_assoc. reflexivity.
    + simpl. rewrite (IH Hrest). reflexivity.
Qed.

Lemma gather_bandit_ok (bandit : list json) :
  forallb is_dict bandit = true ->
  forall acc, gather_bandit bandit acc = Ok (acc ++ analyzer_b_findings bandit)%list.
Proof.
  unfold gather_bandit.
  induction bandit as [|issue rest IH]; intros Hok acc; simpl.
  - rewrite app_nil_r. reflexivity.
  - simpl in Hok. apply andb_true_iff in Hok as [Hissue Hrest].
    destruct issue as [| | | | |fields]; try discriminate.
    simpl. rewrite (IH Hrest), <- app_assoc. reflexivity.
Qed.

Lemma run_command_ok (env : Env) (cmd : list string) (cwd : option string)
    (out : string) (w : World) :
  proc env cmd cwd = Some out ->
  exists w1, run_command env cmd cwd w = (Ok (strip out), w1).
Proof.
  intros Hproc. unfold run_command, subprocess_run.
  cbv beta iota delta [bind perform]. rewrite Hproc.
  eexists. reflexivity.
Qed.

Lemma run_ruff_ok (env : Env) (file_path out : string) (w : World) :
  proc env RUFF_CMD (Some (path_parent env file_path)) = Some out ->
  exists w1,
    run_ruff env (path_parent env file_path) w
    = (Ok (parsed_output env RUFF_CMD (JArr []) file_path), w1).
Proof.
  intros Hproc. unfold run_ruff, parsed_output.
  unfold bind at 1. unfold print at 1. cbv beta iota.
  match goal with
  | |- context [bind (run_command env ?cmd ?cwd) ?k ?w1] =>
      destruct (run_command_ok env cmd cwd out w1 Hproc) as (w2 & Hrun);
      rewrite (bind_ok _ _ _ _ _ Hrun)
  end.
  fold RUFF_CMD. rewrite Hproc.
  destruct (json_loads env (strip out)); eexists; reflexivity.
Qed.

Lemma run_bandit_ok (env : Env) (file_path out : string) (w : World) :
  proc env BANDIT_CMD (Some (path_parent env file_path)) = Some out ->
  exists w1,
    run_bandit env (path_parent env file_path) w
    = (Ok (parsed_output env BANDIT_CMD (JObj []) file_path), w1).
Proof.
  intros Hproc. unfold run_bandit, parsed_output.
  unfold bind at 1. unfold print at 1. cbv beta iota.
  match goal with
  | |- context [bind (run_command env ?cmd ?cwd) ?k ?w1] =>
      destruct (run_command_ok env cmd cwd out w1 Hproc) as (w2 & Hrun);
      rewrite (bind_ok _ _ _ _ _ Hrun)
  end.
  fold BANDIT_CMD. rewrite Hproc.
  destruct (json_loads env (strip out)); eexists; reflexivity.
Qed.

Lemma timed_section_ok {A} (label : string) (func : M A) (a : A) :
  (forall w1, exists w2, func w1 = (Ok a, w2)) ->
  forall w, exists d w', timed_section label func w = (Ok (a, d), w').
Proof.
  intros Hfunc w. unfold timed_section.
  unfold bind at 1. unfold print at 1. cbv beta iota.
  unfold bind at 1. unfold time_time at 1. cbv beta iota.
  match goal with
  | |- context [bind func ?k ?w1] =>
      destruct (Hfunc w1) as (w2 & Hrun); rewrite (bind_ok _ _ _ _ _ Hrun)
  end.
  eexists _, _. reflexivity.
Qed.

Lemma conforming_ruff_elements (output : json) :
  conforming_ruff output = true ->
  iter output = Ok (elements output)
  /\ forallb conforming_item (elements output) = true.
Proof.
  destruct output as [| | | |items|]; try discriminate.
  intros H. split; [reflexivity | exact H].
Qed.

Lemma conforming_bandit_elements (output : json) :
  conforming_bandit output = true ->
  forallb is_dict (elements (field "results" output)) = true
  /\ match contains "results" output with
     | Ok true =>
         exists results,
           getitem output "results" = Ok results
           /\ iter results = Ok (elements (field "results" output))
     | Ok false => elements (field "results" output) = []
     | Raise _ => False
     end.
Proof.
  destruct output as [| | | | |fields]; try discriminate.
  simpl. destruct (lookup "results" fields) as [results|].
  - destruct results as [| | | |issues|]; try discriminate.
    intros H. split; [exact H|]. exists (JArr issues). split; reflexivity.
  - intros _. split; reflexivity.
Qed.

(** One turn of the loop of STEP 2 on conforming output. *)
Lemma analyze_file_ok (env : Env) (acc : analysis) (file_path : string) (w : World) :
  conforming env file_path = true ->
  exists stats w',
    analyze_file env acc file_path w
    = (Ok (mkAnalysis stats
             (all_ruff_results acc ++ ruff_items env file_path)%list
             (all_bandit_results acc ++ bandit_items env file_path)%list), w').
Proof.
  unfold conforming. intros Hok.
  destruct (proc env RUFF_CMD (Some (path_parent env file_path)))
    as [ruff_out|] eqn:Hruff; [|discriminate].
  destruct (proc env BANDIT_CMD (Some (path_parent env file_path)))
    as [bandit_out|] eqn:Hbandit; [|discriminate].
  apply andb_true_iff in Hok as [Hr Hb].
  apply conforming_ruff_elements in Hr as [Hiter _].
  apply conforming_bandit_elements in Hb as [_ Hresults].
  unfold analyze_file, ruff_items, bandit_items. fold RUFF_CMD BANDIT_CMD.
  unfold bind at 1. unfold print at 1. cbv beta iota.
  match goal with
  | |- context [bind (timed_section ?l ?f) ?k ?w1] =>
      destruct (timed_section_ok l f _
                  (fun w0 => run_ruff_ok env file_path ruff_out w0 Hruff) w1)
        as (d1 & w2 & Hrun);
      rewrite (bind_ok _ _ _ _ _ Hrun)
  end.
  cbv beta iota.
  unfold bind at 1. unfold lift at 1. rewrite Hiter. cbv beta iota.
  match goal with
  | |- context [bind (timed_section ?l ?f) ?k ?w1] =>
      destruct (timed_section_ok l f _
                  (fun w0 => run_bandit_ok env file_path bandit_out w0 Hbandit) w1)
        as (d2 & w3 & Hrun');
      rewrite (bind_ok _ _ _ _ _ Hrun')
  end.
  cbv beta iota.
  unfold bind at 1. unfold lift at 1.
  destruct (contains "results" (parsed_output env BANDIT_CMD (JObj []) file_path))
    as [[|]|e]; [| |contradiction].
  - destruct Hresults as (results & Hget & Hiter').
    cbv beta iota.
    unfold bind at 1. unfold lift at 1. rewrite Hget. cbv beta iota.
    unfold bind at 1. unfold lift at 1. rewrite Hiter'. cbv beta iota.
    eexists _, _. reflexivity.
  - cbv beta iota. rewrite Hresults, app_nil_r.
    eexists _, _. reflexivity.
Qed.

Lemma run_analyzers_ok (env : Env) (changed_files : list string) :
  forallb (conforming env) changed_files = true ->
  forall acc w,
  exists stats w',
    for_each (analyze_file env) changed_files acc w
    = (Ok (mkAnalysis stats
             (all_ruff_results acc ++ flat_map (ruff_items env) changed_files)%list
             (all_bandit_results acc ++ flat_map (bandit_items env) changed_files)%list),
       w').
Proof.
  induction changed_files as [|file_path rest IH]; intros Hok acc w; simpl.
  - rewrite !app_nil_r. destruct acc as [stats ruff bandit].
    exists stats, w. reflexivity.
  - simpl in Hok. apply andb_true_iff in Hok as [Hfile Hrest].
    destruct (analyze_file_ok env acc file_path w Hfile) as (stats1 & w1 & Hrun).
    rewrite (bind_ok _ _ _ _ _ Hrun).
    destruct (IH Hrest (mkAnalysis stats1
                 (all_ruff_results acc ++ ruff_items env file_path)%list
                 (all_bandit_results acc ++ bandit_items env file_path)%list) w1)
      as (stats2 & w2 & Hrest_run).
    exists stats2, w2. rewrite Hrest_run. simpl. rewrite <- !app_assoc. reflexivity.
Qed.

Lemma conforming_items (env : Env) (changed_files : list string) :
  forallb (conforming env) changed_files = true ->
  forallb conforming_item (flat_map (ruff_items env) changed_files) = true
  /\ forallb is_dict (flat_map (bandit_items env) changed_files) = true.
Proof.
  induction changed_files as [|file_path rest IH]; intros Hok; simpl.
  - split; reflexivity.
  - simpl in Hok. apply andb_true_iff in Hok as [Hfile Hrest].
    destruct (IH Hrest) as [IHr IHb].
    unfold conforming in Hfile.
    destruct (proc env RUFF_CMD (Some (path_parent env file_path)));
      [|discriminate].
    destruct (proc env BANDIT_CMD (Some (path_parent env file_path)));
      [|discriminate].
    apply andb_true_iff in Hfile as [Hr Hb].
    apply conforming_ruff_elements in Hr as [_ Hr].
    apply conforming_bandit_elements in Hb as [Hb _].
    rewrite !forallb_app, IHr, IHb. unfold ruff_items, bandit_items.
    fold RUFF_CMD BANDIT_CMD. rewrite Hr, Hb. split; reflexivity.
Qed.

(** STEPS 2 and 3 complete on conforming output. *)
Lemma collect_findings_ok (env : Env) (changed_files : list string) (w : World) :
  forallb (conforming env) changed_files = true ->
  exists a w',
    collect_findings env changed_files w
    = (Ok (a, aggregated env changed_files), w').
Proof.
  intros Hok.
  destruct (conforming_items env changed_files Hok) as [Hitems Hissues].
  destruct (run_analyzers_ok env changed_files Hok (mkAnalysis [] [] []) w)
    as (stats & w1 & Hrun).
  simpl in Hrun.
  unfold collect_findings, run_analyzers.
  rewrite (bind_ok _ _ _ _ _ Hrun).
  unfold gather_findings. cbn [all_ruff_results all_bandit_results].
  cbv beta iota delta [bind lift ret].
  rewrite (gather_ruff_ok _ Hitems). cbv beta iota.
  rewrite (gather_bandit_ok _ Hissues). cbv beta iota.
  rewrite check_architecture_structure_value.
  eexists _, _. unfold aggregated. simpl.
  rewrite <- app_assoc. reflexivity.
Qed.

Lemma analyzer_a_findings_tool (items : list json) :
  Forall (has_tool "ruff") (analyzer_a_findings items).
Proof.
  unfold analyzer_a_findings. apply Forall_flat_map.
  apply Forall_forall. intros item _.
  apply Forall_map. apply Forall_forall. intros msg _. reflexivity.
Qed.

Lemma analyzer_b_findings_tool (issues : list json) :
  Forall (has_tool "bandit") (analyzer_b_findings issues).
Proof.
  unfold analyzer_b_findings.
  apply Forall_map. apply Forall_forall. intros issue _. reflexivity.
Qed.

(** C2.  Whatever the analyzers print, a run that gathers its findings
    gathers them in this order: the Ruff findings file by file in
    processing order, then the Bandit findings, then the architecture
    note; the three parts carry their own tool ids.  On output of the
    documented shape the gathering does complete. *)
Theorem aggregation_order (env : Env) (changed_files : list string) (w : World) :
  (forall a fs w',
      collect_findings env changed_files w = (Ok (a, fs), w') ->
      fs = (analyzer_a_findings (flat_map (ruff_items env) changed_files) ++
            analyzer_b_findings (flat_map (bandit_items env) changed_files) ++
            [architecture_finding (architecture_note env)])%list)
  /\ Forall (has_tool "ruff")
            (analyzer_a_findings (flat_map (ruff_items env) changed_files))
  /\ Forall (has_tool "bandit")
            (analyzer_b_findings (flat_map (bandit_items env) changed_files))
  /\ has_tool "architecture" (architecture_finding (architecture_note env))
  /\ (forallb (conforming env) changed_files = true ->
      exists a fs w', collect_findings env changed_files w = (Ok (a, fs), w')).
Proof.
  split; [|split; [|split; [|split]]].
  - intros a fs w' H. apply collect_findings_value in H. exact H.
  - apply analyzer_a_findings_tool.
  - apply analyzer_b_findings_tool.
  - reflexivity.
  - intros Hok. destruct (collect_findings_ok env changed_files w Hok) as (a & w' & H).
    exists a, (aggregated env changed_files), w'. exact H.
Qed.

Lemma aggregation_order_witness :
  exists a w',
    collect_findings healthy_env ["sample/app.py"] world0 = (Ok (a, demo_findings), w').
Proof.
  destruct (aggregation_order healthy_env ["sample/app.py"] world0)
    as (Horder & _ & _ & _ & Hruns).
  destruct (Hruns eq_refl) as (a & fs & w' & Hrun).
  exists a, w'. rewrite Hrun.
  rewrite (Horder a fs w' Hrun). reflexivity.
Defined.

(** *** Missing fields (C7) *)

(** Records without the fields: a Ruff record without [filename] whose
    message has neither [message] nor [location], and a Bandit result
    without [filename], [issue_text] and [line_number], are normalized to
    findings whose filename and message are [None], not a text. *)
Lemma normalization_unknown_default_counterexample :
  ruff_finding (JObj [("messages", JArr [JObj [("code", JStr "F401")]])])
               (JObj [("code", JStr "F401")])
  = Ok (JObj [("tool", JStr "ruff"); ("filename", JNull);
              ("message", JNull); ("line", JNull)])
  /\ bandit_finding (JObj [("test_id", JStr "B307")])
     = Ok (JObj [("tool", JStr "bandit"); ("filename", JNull);
                 ("message", JNull); ("line", JNull)])
  /\ forall s, JNull <> JStr s.
Proof. repeat split. intros s H. discriminate. Qed.

(** What normalization does: it copies each field that is present and
    puts [None] for each that is missing, filename, message and line
    alike; a Ruff message without a location record has line [None]. *)
Theorem normalization_missing_fields_none
    (item_fields msg_fields issue_fields : list (string * json)) :
  conforming_message (JObj msg_fields) = true ->
  ruff_finding (JObj item_fields) (JObj msg_fields)
  = Ok (JObj [("tool", JStr "ruff");
              ("filename", or_none (lookup "filename" item_fields));
              ("message", or_none (lookup "message" msg_fields));
              ("line", match lookup "location" msg_fields with
                       | Some location => field "row" location
                       | None => JNull
                       end)])
  /\ bandit_finding (JObj issue_fields)
     = Ok (JObj [("tool", JStr "bandit");
                 ("filename", or_none (lookup "filename" issue_fields));
                 ("message", or_none (lookup "issue_text" issue_fields));
                 ("line", or_none (lookup "line_number" issue_fields))]).
Proof.
  intros Hmsg. split; [|reflexivity].
  unfold ruff_finding, get1. simpl. simpl in Hmsg.
  destruct (lookup "location" msg_fields) as [location|]; [|reflexivity].
  destruct location as [| | | | |loc_fields]; try discriminate.
  reflexivity.
Qed.

Lemma normalization_missing_fields_none_witness :
  ruff_finding (JObj [("filename", JStr "sample/app.py")])
               (JObj [("location", JObj [("row", JNum 4)])])
  = Ok (JObj [("tool", JStr "ruff"); ("filename", JStr "sample/app.py");
              ("message", JNull); ("line", JNum 4)])
  /\ bandit_finding (JObj [("issue_text", JStr "use of eval")])
     = Ok (JObj [("tool", JStr "bandit"); ("filename", JNull);
                 ("message", JStr "use of eval"); ("line", JNull)]).
Proof.
  apply (normalization_missing_fields_none
           [("filename", JStr "sample/app.py")]
           [("location", JObj [("row", JNum 4)])]
           [("issue_text", JStr "use of eval")]).
  reflexivity.
Defined.

(** The finding always carries the four keys, so the defaults the report
    functions pass to [get] are not used: a missing filename prints as
    [None], and a missing message stops [add_comment_section]. *)
Lemma finding_defaults_unused (tool : string) (message line : json) :
  get (finding tool JNull message line) "filename" (JStr "unknown file") = Ok JNull.
Proof. reflexivity. Qed.

Lemma comment_entry_without_message (i : Z) (tool : string) (filename line : json) :
  comment_entry i (finding tool filename JNull line) = Raise AttributeError.
Proof. reflexivity. Qed.

(** C7.  The defaults for a missing filename or message are asked for by
    the functions that read the findings ([unknown file], [unknown], the
    empty text) and can never apply: [main] stores the key with [None]
    for a field the analyzer record lacks.  So for a Ruff record without
    [filename] whose message has no [message], the finding holds [None]
    for both, every [get] with a default returns [None], the prompt lines
    print [None], and [add_comment_section] raises [AttributeError] on
    [None.strip()]. *)
Theorem missing_fields_defeat_defaults
    (item_fields msg_fields : list (string * json)) (i : Z) :
  lookup "filename" item_fields = None ->
  lookup "message" msg_fields = None ->
  conforming_message (JObj msg_fields) = true ->
  exists f,
    ruff_finding (JObj item_fields) (JObj msg_fields) = Ok f
    /\ get f "filename" (JStr "unknown file") = Ok JNull
    /\ get f "filename" (JStr "unknown") = Ok JNull
    /\ get f "message" (JStr "") = Ok JNull
    /\ issue_line f = Ok "- None (in None)"
    /\ comment_entry i f = Raise AttributeError
    /\ forall env rest w,
         fst (add_comment_section env (f :: rest) w) = Raise AttributeError.
Proof.
  intros Hfilename Hmessage Hmsg.
  assert (Hfinding : exists row,
             ruff_finding (JObj item_fields) (JObj msg_fields)
             = Ok (finding "ruff" JNull JNull row)).
  { unfold ruff_finding, get1. simpl. rewrite Hfilename, Hmessage.
    simpl in Hmsg.
    destruct (lookup "location" msg_fields) as [location|].
    - destruct location; try discriminate. eexists. reflexivity.
    - eexists. reflexivity. }
  destruct Hfinding as (row & ->).
  exists (finding "ruff" JNull JNull row).
  split; [reflexivity|].
  repeat (split; [reflexivity|]).
  intros env rest [t out rep pat log tr]. reflexivity.
Qed.

Lemma missing_fields_defeat_defaults_witness :
  exists f,
    ruff_finding (JObj [("messages", JArr [JObj [("code", JStr "F401");
                                                 ("location", JObj [("row", JNum 1)])]])])
                 (JObj [("code", JStr "F401"); ("location", JObj [("row", JNum 1)])])
    = Ok f
    /\ get f "filename" (JStr "unknown file") = Ok JNull
    /\ get f "filename" (JStr "unknown") = Ok JNull
    /\ get f "message" (JStr "") = Ok JNull
    /\ issue_line f = Ok "- None (in None)"
    /\ comment_entry 1 f = Raise AttributeError
    /\ forall env rest w,
         fst (add_comment_section env (f :: rest) w) = Raise AttributeError.
Proof.
  apply (missing_fields_defeat_defaults
           [("messages", JArr [JObj [("code", JStr "F401");
                                     ("location", JObj [("row", JNum 1)])]])]
           [("code", JStr "F401"); ("location", JObj [("row", JNum 1)])] 1%Z);
    reflexivity.
Defined.

(** The run on such a record: the narrative, the patch and the effort
    estimate are produced with [None] in their prompts, then the script
    ends on the exception, with no developer-response section and no
    summary in the report. *)
Example sparse_record_run_raises :
  fst (script sparse_env ["--file=sample/app.py"] world0) = Raise AttributeError
  /\ option_map (count_substr "### Effort Estimation")
                (report (snd (script sparse_env ["--file=sample/app.py"] world0)))
     = Some 1%nat
  /\ option_map (count_substr "### Performance Summary")
                (report (snd (script sparse_env ["--file=sample/app.py"] world0)))
     = Some 0%nat.
Proof. vm_compute. repeat split. Qed.

(** *** The architecture check (C8, C10) *)

(** C8, as stated, fails: with two of the expected directories missing the
    check yields one note naming both, not one note for each. *)
Lemma one_note_per_missing_directory_counterexample :
  filter (fun d => negb (path_exists bare_env d)) required_dirs
  = ["orchestrator"; "sample"]
  /\ fst (check_architecture_structure bare_env world0)
     = Ok ["Missing expected module directories: orchestrator, sample"].
Proof. split; reflexivity. Qed.

(** C8, amended.  The check yields exactly one note: the confirming
    sentence when no expected directory is missing, else one sentence
    listing every missing directory.  [main] turns it into a finding with
    tool id [architecture], the last of the gathered findings. *)
Theorem architecture_check_single_note (env : Env) (a : analysis)
    (fs : list json) (w w' : World) :
  gather_findings env a w = (Ok fs, w') ->
  let missing := filter (fun d => negb (path_exists env d)) required_dirs in
  exists note,
    (forall w0, fst (check_architecture_structure env w0) = Ok [note])
    /\ (missing = [] -> note = "Project structure follows modular architecture.")
    /\ (missing <> [] ->
        note = "Missing expected module directories: " ++ String.concat ", " missing)
    /\ (exists earlier, fs = (earlier ++ [architecture_finding note])%list)
    /\ has_tool "architecture" (architecture_finding note).
Proof.
  intros H missing. exists (architecture_note env).
  split; [|split; [|split; [|split]]].
  - intros w0. rewrite check_architecture_structure_value. reflexivity.
  - unfold architecture_note. fold missing. intros ->. reflexivity.
  - unfold architecture_note. fold missing.
    destruct missing; [intros Hne; contradiction | reflexivity].
  - unfold gather_findings in H.
    step H. step H. step H.
    rewrite check_architecture_structure_value in Hstep1.
    inversion Hstep1; subst. apply ret_inv in H as [<- _].
    exists v0. reflexivity.
  - reflexivity.
Qed.

Lemma architecture_check_single_note_witness :
  exists note,
    (forall w0, fst (check_architecture_structure bare_env w0) = Ok [note])
    /\ (["orchestrator"; "sample"] = [] ->
        note = "Project structure follows modular architecture.")
    /\ (["orchestrator"; "sample"] <> [] ->
        note = "Missing expected module directories: orchestrator, sample")
    /\ (exists earlier,
          demo_findings_bare = (earlier ++ [architecture_finding note])%list)
    /\ has_tool "architecture" (architecture_finding note).
Proof.
  apply (architecture_check_single_note bare_env
           (mkAnalysis [] (elements ruff_output_demo)
                       (elements (field "results" bandit_output_demo)))
           demo_findings_bare world0
           (mkWorld 170000000000%Z ["Performing architecture structure check..."]
                    None [] [] [])).
  reflexivity.
Defined.

(** With a first finding the three functions enter their main branch,
    whose first act is a console line. *)
Ltac split_branches :=
  repeat (run;
          first
            [ match goal with
              | |- context [issues_text ?x] => destruct (issues_text x)
              end
            | match goal with
              | |- context [comment_section ?x] => destruct (comment_section x)
              end
            | match goal with
              | |- context [post ?e ?k] => destruct (post e k)
              end
            | match goal with
              | |- context [(?s =? 200)%Z] => destruct (s =? 200)%Z
              end
            | match goal with
              | |- context [json_loads ?e ?t] => destruct (json_loads e t)
              end
            | match goal with
              | |- context [message_content ?d] => destruct (message_content d)
              end
            | match goal with
              | |- context [can_write ?e ?p] => destruct (can_write e p)
              end ];
          cbn [negb]).

Ltac announce :=
  cbn [stdout snd]; repeat rewrite <- app_assoc; eexists; reflexivity.

Lemma estimate_effort_announces (env : Env) (f : json) (rest : list json)
    (model : string) (w : World) :
  exists more,
    stdout (snd (estimate_effort env (f :: rest) model w))
    = (stdout w ++ "Estimating development effort with LLM..." :: more)%list.
Proof.
  destruct w as [t out rep pat log tr].
  unfold estimate_effort. split_branches; announce.
Qed.

Lemma generate_auto_fix_announces (env : Env) (f : json) (rest : list json)
    (model : string) (w : World) :
  exists more,
    stdout (snd (generate_auto_fix env (f :: rest) model w))
    = (stdout w ++ "Generating automatic fixes with LLM..." :: more)%list.
Proof.
  destruct w as [t out rep pat log tr].
  unfold generate_auto_fix. split_branches; announce.
Qed.

Lemma add_comment_section_announces (env : Env) (f : json) (rest : list json)
    (w : World) :
  exists more,
    stdout (snd (add_comment_section env (f :: rest) w))
    = (stdout w ++ "Adding developer comment section to report..." :: more)%list.
Proof.
  destruct w as [t out rep pat log tr].
  unfold add_comment_section. split_branches; announce.
Qed.

(** C10.  The architecture check always yields exactly one note, so the
    findings a run gathers are never empty, and [estimate_effort],
    [generate_auto_fix] and [add_comment_section] enter their main branch
    on them: each starts with the console line of that branch. *)
Theorem findings_never_empty (env : Env) (changed_files : list string)
    (a : analysis) (fs : list json) (w w' : World) :
  collect_findings env changed_files w = (Ok (a, fs), w') ->
  (forall w0, exists note, fst (check_architecture_structure env w0) = Ok [note])
  /\ fs <> []
  /\ (forall model w0, exists more,
         stdout (snd (estimate_effort env fs model w0))
         = (stdout w0 ++ "Estimating development effort with LLM..." :: more)%list)
  /\ (forall model w0, exists more,
         stdout (snd (generate_auto_fix env fs model w0))
         = (stdout w0 ++ "Generating automatic fixes with LLM..." :: more)%list)
  /\ (forall w0, exists more,
         stdout (snd (add_comment_section env fs w0))
         = (stdout w0 ++ "Adding developer comment section to report..." :: more)%list).
Proof.
  intros H. apply collect_findings_value in H.
  split.
  { intros w0. exists (architecture_note env).
    rewrite check_architecture_structure_value. reflexivity. }
  assert (Hne : fs <> []).
  { subst fs. unfold aggregated. intros Hnil.
    apply app_eq_nil in Hnil as [_ Hnil].
    apply app_eq_nil in Hnil as [_ Hnil]. discriminate. }
  split; [exact Hne|].
  destruct fs as [|f rest]; [contradiction|].
  split; [|split].
  - intros model w0. apply estimate_effort_announces.
  - intros model w0. apply generate_auto_fix_announces.
  - intros w0. apply add_comment_section_announces.
Qed.

Lemma findings_never_empty_witness :
  demo_findings <> []
  /\ exists more,
       stdout (snd (estimate_effort healthy_env demo_findings MODEL world0))
       = "Estimating development effort with LLM..." :: more.
Proof.
  assert (Hrun : collect_findings healthy_env ["sample/app.py"] world0
                 = (Ok (demo_analysis, demo_findings), demo_collected)).
  { vm_compute. reflexivity. }
  destruct (findings_never_empty healthy_env ["sample/app.py"]
              demo_analysis demo_findings world0 demo_collected Hrun)
    as (_ & Hne & Heffort & _).
  split; [exact Hne | exact (Heffort MODEL world0)].
Defined.

(** *** The developer-response section (C3) *)

Lemma append_assoc (a b c : string) : ((a ++ b) ++ c = a ++ (b ++ c))%string.
Proof. induction a as [|ch a IH]; simpl; [reflexivity | rewrite IH; reflexivity]. Qed.

Lemma append_empty_r (a : string) : (a ++ "" = a)%string.
Proof. induction a as [|ch a IH]; simpl; [reflexivity | rewrite IH; reflexivity]. Qed.

(** One turn of the loop renders the entry of the specification. *)
Lemma comment_entry_value (i : Z) (f : json) :
  has_text_message f = true ->
  comment_entry i f = Ok (response_entry i f).
Proof.
  unfold has_text_message, text_message, comment_entry, response_entry.
  destruct f as [| | | | |fields]; try discriminate.
  simpl. destruct (lookup "message" fields) as [m|].
  - destruct m as [| | |s| |]; try discriminate. intros _. reflexivity.
  - intros _. reflexivity.
Qed.

Lemma comment_section_loop (findings : list json) :
  forallb has_text_message findings = true ->
  forall (start : Z) (section : string),
    rfold (fun section (p : Z * json) =>
             rbind (comment_entry (fst p) (snd p)) (fun entry =>
             Ok (section ++ entry)%string))
          (enumerate start findings) section
    = Ok (section ++
          concat_all (map (fun p => response_entry (fst p) (snd p))
                          (enumerate start findings)))%string.
Proof.
  induction findings as [|f rest IH]; intros Hok start section; simpl.
  - rewrite append_empty_r. reflexivity.
  - simpl in Hok. apply andb_true_iff in Hok as [Hf Hrest].
    rewrite (comment_entry_value start f Hf). simpl.
    rewrite (IH Hrest), append_assoc. reflexivity.
Qed.

Lemma enumerate_nth {A} (xs : list A) :
  forall (start : Z) (n : nat),
    nth_error (enumerate start xs) n
    = option_map (fun x => ((start + Z.of_nat n)%Z, x)) (nth_error xs n).
Proof.
  induction xs as [|x rest IH]; intros start n.
  - destruct n; reflexivity.
  - destruct n as [|n]; simpl.
    + rewrite Z.add_0_r. reflexivity.
    + rewrite IH. destruct (nth_error rest n); simpl; [|reflexivity].
      do 2 f_equal. lia.
Qed.

Lemma enumerate_length {A} (xs : list A) :
  forall start, List.length (enumerate start xs) = List.length xs.
Proof.
  induction xs as [|x rest IH]; intros start; simpl; [reflexivity|].
  rewrite IH. reflexivity.
Qed.

(** C3, as stated, fails: in the run with two Ruff findings and one Bandit
    finding for the one target file, the developer-response section has
    four entries, the fourth being the architecture note. *)
Lemma developer_responses_three_entries_counterexample :
  List.length (analyzer_a_findings (ruff_items healthy_env "sample/app.py")) = 2%nat
  /\ List.length (analyzer_b_findings (bandit_items healthy_env "sample/app.py")) = 1%nat
  /\ fst (script healthy_env ["--file=sample/app.py"] world0) = Ok tt
  /\ option_map (count_substr ENTRY_BOXES)
                (report (snd (script healthy_env ["--file=sample/app.py"] world0)))
     = Some 4%nat
  /\ option_map (count_substr ENTRY_BOXES)
                (report (snd (script healthy_env ["--file=sample/app.py"] world0)))
     <> Some 3%nat.
Proof.
  split; [reflexivity|]. split; [reflexivity|]. split; [vm_compute; reflexivity|].
  assert (H : option_map (count_substr ENTRY_BOXES)
                (report (snd (script healthy_env ["--file=sample/app.py"] world0)))
              = Some 4%nat) by (vm_compute; reflexivity).
  split; [exact H|]. rewrite H. discriminate.
Qed.

(** C3, amended.  The developer-response section has one numbered entry
    per finding of the aggregated list, in the order of the list and
    numbered from 1, each closing with two unchecked boxes and the comment
    placeholder; the list includes the architecture note, so two Ruff
    findings and one Bandit finding give four entries. *)
Theorem developer_responses_match_findings (env : Env) (findings : list json)
    (w : World) :
  findings <> [] ->
  forallb has_text_message findings = true ->
  can_write env REPORT = true ->
  exists entries,
    fst (add_comment_section env findings w) = Ok tt
    /\ report (snd (add_comment_section env findings w))
       = Some (match report w with Some old => old | None => "" end ++
               SECTION_HEAD ++ concat_all entries)
    /\ List.length entries = List.length findings
    /\ (forall n f,
          nth_error findings n = Some f ->
          nth_error entries n = Some (response_entry (Z.of_nat n + 1) f))
    /\ Forall (fun entry => exists head, entry = head ++ ENTRY_BOXES) entries.
Proof.
  intros Hne Hok Hwrite.
  exists (response_entries findings).
  assert (Hsection : comment_section findings
                     = Ok (SECTION_HEAD ++ concat_all (response_entries findings))).
  { unfold comment_section. apply comment_section_loop. exact Hok. }
  destruct findings as [|f rest]; [contradiction|].
  destruct w as [t out rep pat log tr].
  unfold add_comment_section.
  run. rewrite Hsection. run. rewrite Hwrite.
  split; [reflexivity|]. split.
  { destruct rep; reflexivity. }
  split.
  { unfold response_entries. rewrite length_map, enumerate_length. reflexivity. }
  split.
  - intros n g Hn. unfold response_entries.
    rewrite nth_error_map, enumerate_nth, Hn. simpl.
    rewrite Z.add_comm. reflexivity.
  - unfold response_entries. apply Forall_map. apply Forall_forall.
    intros p _. unfold response_entry. eexists. reflexivity.
Qed.

Lemma developer_responses_match_findings_witness :
  exists entries,
    fst (add_comment_section healthy_env demo_findings world0) = Ok tt
    /\ report (snd (add_comment_section healthy_env demo_findings world0))
       = Some ("" ++ SECTION_HEAD ++ concat_all entries)
    /\ List.length entries = 4%nat
    /\ (forall n f,
          nth_error demo_findings n = Some f ->
          nth_error entries n = Some (response_entry (Z.of_nat n + 1) f))
    /\ Forall (fun entry => exists head, entry = head ++ ENTRY_BOXES) entries.
Proof.
  apply (developer_responses_match_findings healthy_env demo_findings world0).
  - discriminate.
  - reflexivity.
  - reflexivity.
Defined.

(** ** Further properties of the orchestrator *)

(** *** File selection *)

(** X1.  [get_changed_files] never raises: the one subprocess it starts is
    traced, and when starting it fails the result is the empty list, with
    the report, the patch files and the usage log untouched either way. *)
Theorem get_changed_files_never_raises (env : Env) (w : World) :
  exists files w',
    get_changed_files env w = (Ok files, w')
    /\ only_called [Subprocess GIT_CMD None] w w'
    /\ (proc env GIT_CMD None = None -> files = []).
Proof.
  destruct w as [t out rep pat log tr].
  unfold get_changed_files, subprocess_run, only_called. fold GIT_CMD.
  run. destruct (proc env GIT_CMD None) as [text|].
  - eexists _, _. split; [reflexivity|]. split; [repeat split|]. discriminate.
  - eexists _, _. split; [reflexivity|]. split; [repeat split|]. reflexivity.
Qed.

(** X3.  In incremental mode with no changed Python file (or with [git] not
    starting) [main] returns at once: no analyzer and no request to the
    model service, and the report is as it was. *)
Theorem incremental_without_changes_returns (env : Env) (custom_rules : json)
    (file_target : option string) (w : World) :
  (forall text, proc env GIT_CMD None = Some text ->
                filter (fun f => endswith f ".py") (splitlines text) = []) ->
  exists w',
    main env custom_rules "incremental" file_target w = (Ok tt, w')
    /\ only_called [Subprocess GIT_CMD None] w w'.
Proof.
  intros Hnone.
  destruct w as [t out rep pat log tr].
  unfold main, select_files, explicit_target. cbn [String.eqb Ascii.eqb Bool.eqb orb].
  unfold get_changed_files, subprocess_run, only_called. fold GIT_CMD.
  run. destruct (proc env GIT_CMD None) as [text|].
  - rewrite (Hnone text eq_refl). run.
    eexists. split; [reflexivity | repeat split].
  - run. eexists. split; [reflexivity | repeat split].
Qed.

Lemma incremental_without_changes_returns_witness :
  exists w',
    main healthy_env (JObj []) "incremental" None world0 = (Ok tt, w')
    /\ only_called [Subprocess GIT_CMD None] world0 w'.
Proof.
  apply (incremental_without_changes_returns healthy_env (JObj []) None world0).
  intros text H. inversion H. reflexivity.
Defined.

(** *** Running the analyzers *)

Ltac run_analysis :=
  cbv beta iota zeta delta
      [bind ret raise lift try_except print time_time perform timed_section
       run_ruff run_bandit run_command subprocess_run analyze_file
       now stdout report patches ai_usage_log trace fst snd
       performance_stats all_ruff_results all_bandit_results].

(** Case analysis on everything one turn of the loop of STEP 2 asks of the
    outside world and of the values it gets back. *)
Ltac split_analysis :=
  repeat (run_analysis;
          first
            [ match goal with
              | |- context [proc ?e ?c ?d] => destruct (proc e c d) eqn:?
              end
            | match goal with
              | |- context [json_loads ?e ?t] => destruct (json_loads e t) eqn:?
              end
            | match goal with
              | |- context [iter ?v] => destruct (iter v) eqn:?
              end
            | match goal with
              | |- context [contains ?k ?v] => destruct (contains k v) as [[|]|] eqn:?
              end
            | match goal with
              | |- context [getitem ?v ?k] => destruct (getitem v k) eqn:?
              end ]).

(** X7.  An analyzer whose output is not JSON counts as having found nothing:
    [run_ruff] yields the empty list and [run_bandit] the empty record, and
    the turn of the loop for that file adds no record and does not raise. *)
Theorem analyzers_tolerate_undecodable_output (env : Env) (acc : analysis)
    (file_path ruff_text bandit_text : string) (w : World) :
  proc env RUFF_CMD (Some (path_parent env file_path)) = Some ruff_text ->
  json_loads env (strip ruff_text) = None ->
  proc env BANDIT_CMD (Some (path_parent env file_path)) = Some bandit_text ->
  json_loads env (strip bandit_text) = None ->
  fst (run_ruff env (path_parent env file_path) w) = Ok (JArr [])
  /\ fst (run_bandit env (path_parent env file_path) w) = Ok (JObj [])
  /\ exists stats w',
       analyze_file env acc file_path w
       = (Ok (mkAnalysis stats (all_ruff_results acc) (all_bandit_results acc)), w').
Proof.
  intros Hruff Hruff_json Hbandit Hbandit_json.
  destruct w as [t out rep pat log tr]. destruct acc as [stats ruff bandit].
  unfold run_ruff, run_bandit. fold RUFF_CMD BANDIT_CMD.
  split; [|split].
  - run_analysis. fold RUFF_CMD. rewrite Hruff. run_analysis.
    rewrite Hruff_json. reflexivity.
  - run_analysis. fold BANDIT_CMD. rewrite Hbandit. run_analysis.
    rewrite Hbandit_json. reflexivity.
  - run_analysis. fold RUFF_CMD BANDIT_CMD.
    rewrite Hruff. run_analysis. rewrite Hruff_json. run_analysis.
    cbn [iter]. run_analysis.
    rewrite Hbandit. run_analysis. rewrite Hbandit_json. run_analysis.
    cbn [contains lookup]. run_analysis.
    rewrite !app_nil_r. eexists _, _. reflexivity.
Qed.

Lemma analyzers_tolerate_undecodable_output_witness :
  fst (run_ruff garbled_env "sample" world0) = Ok (JArr [])
  /\ fst (run_bandit garbled_env "sample" world0) = Ok (JObj [])
  /\ exists stats w',
       analyze_file garbled_env (mkAnalysis [] [] []) "sample/app.py" world0
       = (Ok (mkAnalysis stats [] []), w').
Proof.
  apply (analyzers_tolerate_undecodable_output garbled_env (mkAnalysis [] [] [])
           "sample/app.py" "Traceback (most recent call last):"
           "Traceback (most recent call last):" world0);
    reflexivity.
Defined.

(** A successful turn of the loop for one file starts Ruff, then Bandit,
    in the directory of the file, records one timing for each under the
    labels [Ruff] and [Bandit], and touches neither the report nor the
    patch files nor the usage log. *)
Lemma analyze_file_calls (env : Env) (acc a : analysis) (file_path : string)
    (w w' : World) :
  analyze_file env acc file_path w = (Ok a, w') ->
  map fst (performance_stats a)
  = (map fst (performance_stats acc) ++ ["Ruff"; "Bandit"])%list
  /\ only_called (analyzer_calls env file_path) w w'.
Proof.
  destruct w as [t out rep pat log tr]. destruct acc as [stats ruff bandit].
  unfold analyzer_calls, only_called. revert a w'.
  split_analysis; intros ? ? H; try discriminate;
    inversion H; subst; clear H; cbn [performance_stats trace report patches ai_usage_log];
    rewrite ?map_app, <- ?app_assoc; repeat split.
Qed.

(** X8.  STEP 2 as a whole: when the loop completes, the processes started are
    Ruff and Bandit for each file in processing order, the timing log has
    the labels [Ruff], [Bandit] once per file, and the report, the patch
    files and the usage log are untouched. *)
Theorem run_analyzers_calls (env : Env) (changed_files : list string)
    (a : analysis) (w w' : World) :
  run_analyzers env changed_files w = (Ok a, w') ->
  map fst (performance_stats a)
  = flat_map (fun _ => ["Ruff"; "Bandit"]) changed_files
  /\ only_called (flat_map (analyzer_calls env) changed_files) w w'.
Proof.
  unfold run_analyzers.
  assert (Hloop : forall files acc a w w',
             for_each (analyze_file env) files acc w = (Ok a, w') ->
             map fst (performance_stats a)
             = (map fst (performance_stats acc) ++
                flat_map (fun _ => ["Ruff"; "Bandit"]) files)%list
             /\ only_called (flat_map (analyzer_calls env) files) w w').
  { induction files as [|file_path rest IH]; intros acc a0 w0 w0' H.
    - apply ret_inv in H as [<- <-]. simpl. rewrite !app_nil_r.
      unfold only_called. rewrite app_nil_r. repeat split.
    - simpl in H. step H.
      apply analyze_file_calls in Hstep as [Hlabels (Htr & Hrep & Hpat & Hlog)].
      apply IH in H as [Hlabels' (Htr' & Hrep' & Hpat' & Hlog')].
      split.
      + rewrite Hlabels', Hlabels. simpl. rewrite <- app_assoc. reflexivity.
      + unfold only_called. rewrite Htr', Htr, Hrep', Hrep, Hpat', Hpat, Hlog', Hlog.
        simpl. rewrite <- app_assoc. repeat split. }
  intros H. apply Hloop in H. exact H.
Qed.

Lemma run_analyzers_calls_witness :
  map fst (performance_stats demo_analysis) = ["Ruff"; "Bandit"]
  /\ only_called (analyzer_calls healthy_env "sample/app.py") world0 demo_analyzed.
Proof.
  apply (run_analyzers_calls healthy_env ["sample/app.py"] demo_analysis
           world0 demo_analyzed).
  vm_compute. reflexivity.
Defined.

(** X9.  An analyzer that cannot be started stops the run: the exception of
    [subprocess.run] is not caught on the way out of the loop. *)
Theorem analyzer_not_starting_aborts (env : Env) (changed_files : list string)
    (file_path : string) (w : World) :
  In file_path changed_files ->
  proc env RUFF_CMD (Some (path_parent env file_path)) = None
  \/ proc env BANDIT_CMD (Some (path_parent env file_path)) = None ->
  exists e w', run_analyzers env changed_files w = (Raise e, w').
Proof.
  intros Hin Hproc. unfold run_analyzers.
  generalize (mkAnalysis [] [] []). revert w.
  induction changed_files as [|f rest IH]; intros w acc; [contradiction|].
  simpl.
  destruct (analyze_file env acc f w) as [[a|e] w1] eqn:Hturn.
  - rewrite (bind_ok _ _ _ _ _ Hturn).
    destruct Hin as [-> | Hin]; [|apply IH; exact Hin].
    exfalso. revert Hturn.
    destruct w as [t out rep pat log tr]. destruct acc as [stats ruff bandit].
    fold RUFF_CMD BANDIT_CMD.
    destruct Hproc as [Hnone | Hnone].
    + run_analysis. fold RUFF_CMD. rewrite Hnone. discriminate.
    + split_analysis; try discriminate;
        fold BANDIT_CMD in *; congruence.
  - rewrite (bind_raise _ _ _ _ _ Hturn). eexists _, _. reflexivity.
Qed.

Lemma analyzer_not_starting_aborts_witness :
  exists e w', run_analyzers no_ruff_env ["sample/app.py"] world0 = (Raise e, w').
Proof.
  apply (analyzer_not_starting_aborts no_ruff_env ["sample/app.py"]
           "sample/app.py" world0).
  - left. reflexivity.
  - left. reflexivity.
Defined.

(** *** The command line *)

Lemma substring_all (s : string) : substring 0 (String.length s) s = s.
Proof. induction s as [|c s IH]; simpl; [reflexivity | rewrite IH; reflexivity]. Qed.

Lemma parse_args_app (args more : list string) :
  parse_args (args ++ more)
  = fold_left
      (fun (st : string * option string) arg =>
         if String.eqb arg "--mode=incremental" then ("incremental", snd st)
         else if prefix "--file=" arg
              then ("file", Some (substring 7 (String.length arg - 7) arg))
              else st)
      more (parse_args args).
Proof. unfold parse_args. apply fold_left_app. Qed.

Lemma parse_args_file_last (args : list string) (p : string) :
  parse_args (args ++ ["--file=" ++ p]) = ("file", Some p).
Proof.
  rewrite parse_args_app. simpl.
  assert (Hprefix : prefix "" p = true) by (destruct p; reflexivity).
  rewrite Hprefix, Nat.sub_0_r, substring_all. reflexivity.
Qed.

(** X4.  The last flag decides: a closing [--file=p] selects single-file mode
    with exactly [p] as target, whatever came before; a closing
    [--mode=incremental] selects incremental mode and keeps the target an
    earlier [--file=] gave, which [main] then ignores. *)
Theorem parse_args_last_flag_wins (args : list string) (p : string) :
  parse_args (args ++ ["--file=" ++ p]) = ("file", Some p)
  /\ parse_args (args ++ ["--mode=incremental"])
     = ("incremental", snd (parse_args args))
  /\ explicit_target "incremental" (snd (parse_args args)) = None.
Proof.
  split; [|split].
  - apply parse_args_file_last.
  - rewrite parse_args_app. reflexivity.
  - reflexivity.
Qed.

(** X5.  Arguments that are neither flag are skipped: without a flag the
    script runs a full analysis with no target. *)
Theorem parse_args_ignores_other_arguments (args : list string) :
  Forall (fun arg => arg <> "--mode=incremental" /\ prefix "--file=" arg = false)
         args ->
  parse_args args = ("full", None).
Proof.
  unfold parse_args. generalize ("full", @None string).
  induction args as [|arg rest IH]; intros st Hargs; [reflexivity|].
  inversion Hargs as [|? ? [Hmode Hfile] Hrest]; subst.
  simpl. apply String.eqb_neq in Hmode. rewrite Hmode, Hfile.
  apply IH. exact Hrest.
Qed.

Lemma parse_args_ignores_other_arguments_witness :
  parse_args ["--verbose"; "sample/app.py"] = ("full", None).
Proof.
  apply (parse_args_ignores_other_arguments ["--verbose"; "sample/app.py"]).
  repeat constructor; discriminate.
Defined.

(** X6.  From the command line: [--file=p] with a [p] that does not exist (and
    no rule store) ends the script after the console lines, with no
    external call at all and the report as it was. *)
Theorem script_missing_target_returns (env : Env) (args : list string)
    (p : string) (w : World) :
  path_exists env RULES_PATH = false ->
  p <> "" ->
  path_exists env p = false ->
  exists w',
    script env (args ++ ["--file=" ++ p]) w = (Ok tt, w')
    /\ only_called [] w w'
    /\ stdout w'
       = (stdout w ++ ["Running orchestrator in mode: file";
                       ("Target file: " ++ p)%string;
                       "Starting AI Code Review Assistant...";
                       ("File not found: " ++ p)%string])%list.
Proof.
  intros Hrules Hp Hmissing. apply String.eqb_neq in Hp.
  destruct w as [t out rep pat log tr].
  pose proof (parse_args_file_last args p) as Hparse.
  assert (Htarget : explicit_target "file" (Some p) = Some p).
  { unfold explicit_target. rewrite Hp. reflexivity. }
  unfold script, load_custom_rules, only_called.
  rewrite Hrules, Hparse, Hp. cbn [truthy].
  unfold main, select_files. rewrite Htarget, Hmissing. cbn [negb]. run.
  eexists. split; [reflexivity|].
  split; [rewrite app_nil_r; repeat split|].
  rewrite <- !app_assoc. reflexivity.
Qed.

Lemma script_missing_target_returns_witness :
  exists w',
    script healthy_env ["--mode=incremental"; "--file=sample/gone.py"] world0
    = (Ok tt, w')
    /\ only_called [] world0 w'
    /\ stdout w'
       = ["Running orchestrator in mode: file";
          "Target file: sample/gone.py";
          "Starting AI Code Review Assistant...";
          "File not found: sample/gone.py"].
Proof.
  apply (script_missing_target_returns healthy_env ["--mode=incremental"]
           "sample/gone.py" world0).
  - reflexivity.
  - discriminate.
  - reflexivity.
Defined.

(** *** Requests to the model service *)

(** As [split_branches], keeping what each case learned. *)
Ltac split_calls :=
  repeat (run;
          first
            [ match goal with
              | |- context [post ?e ?k] => destruct (post e k) eqn:?
              end
            | match goal with
              | |- context [(?s =? 200)%Z] => destruct (s =? 200)%Z eqn:?
              end
            | match goal with
              | |- context [json_loads ?e ?t] => destruct (json_loads e t) eqn:?
              end
            | match goal with
              | |- context [message_content ?d] => destruct (message_content d) eqn:?
              end
            | match goal with
              | |- context [can_write ?e ?p] => destruct (can_write e p) eqn:?
              end ];
          cbn [negb]).

Lemma report_kept_same (w w' : World) :
  report w' = report w -> report_kept w w'.
Proof.
  intros H old Hold. exists "". rewrite H, Hold, append_empty_r. reflexivity.
Qed.

Lemma report_kept_append (w w' : World) (text : string) :
  report w' = Some (match report w with
                    | Some old => old ++ text
                    | None => text
                    end) ->
  report_kept w w'.
Proof. intros H old Hold. exists text. rewrite H, Hold. reflexivity. Qed.

Lemma report_kept_trans (w1 w2 w3 : World) :
  report_kept w1 w2 -> report_kept w2 w3 -> report_kept w1 w3.
Proof.
  intros H12 H23 old Hold.
  destruct (H12 old Hold) as (more1 & H2).
  destruct (H23 _ H2) as (more2 & H3).
  exists (more1 ++ more2). rewrite H3, append_assoc. reflexivity.
Qed.

(** The prompt lines can be built for findings that are dictionaries. *)
Lemma issues_text_dicts (findings : list json) :
  forallb is_dict findings = true -> exists issues, issues_text findings = Ok issues.
Proof.
  unfold issues_text. intros Hdicts.
  assert (Hlines : exists lines, rmap issue_line findings = Ok lines).
  { induction findings as [|f rest IH]; [exists []; reflexivity|].
    simpl in Hdicts. apply andb_true_iff in Hdicts as [Hf Hrest].
    destruct (IH Hrest) as (lines & Hlines).
    destruct f as [| | | | |fields]; try discriminate.
    simpl. rewrite Hlines. eexists. reflexivity. }
  destruct Hlines as (lines & ->). eexists. reflexivity.
Qed.

Lemma doc_lines_dicts (findings : list json) :
  forallb is_dict findings = true -> exists lines, rmap doc_line findings = Ok lines.
Proof.
  induction findings as [|f rest IH]; intros Hdicts; [exists []; reflexivity|].
  simpl in Hdicts. apply andb_true_iff in Hdicts as [Hf Hrest].
  destruct (IH Hrest) as (lines & Hlines).
  destruct f as [| | | | |fields]; try discriminate.
  simpl. rewrite Hlines. eexists. reflexivity.
Qed.

Lemma firstn_dicts (n : nat) (findings : list json) :
  forallb is_dict findings = true -> forallb is_dict (firstn n findings) = true.
Proof.
  revert n. induction findings as [|f rest IH]; intros n H; destruct n; try reflexivity.
  simpl in *. apply andb_true_iff in H as [Hf Hrest].
  rewrite Hf, (IH n Hrest). reflexivity.
Qed.

(** X11.  With no findings the narrative review is still requested, with a
    fixed sentence in place of the list of issues: unlike the effort
    estimate and the patch, it is never bypassed. *)
Theorem analyze_with_llm_never_bypassed (env : Env) (custom_rules : json)
    (model : string) (w : World) :
  trace (snd (analyze_with_llm env custom_rules [] model w))
  = (trace w ++
     [HttpPost Narrative model
        (mkPrompt (Some custom_rules)
           "No issues were found, but please review the code quality overall.")])%list.
Proof.
  destruct w as [t out rep pat log tr].
  unfold analyze_with_llm. split_calls; reflexivity.
Qed.



(** X13.  [generate_auto_fix] never raises on findings that are dictionaries,
    whatever the service does, and never touches the report.  It writes at
    most one patch file: exactly when it returns a path, which requires a
    reply with status 200. *)
Theorem generate_auto_fix_contained (env : Env) (findings : list json)
    (model : string) (w : World) :
  forallb is_dict findings = true ->
  exists r w',
    generate_auto_fix env findings model w = (Ok r, w')
    /\ report w' = report w
    /\ match r with
       | None => patches w' = patches w
       | Some path =>
           (exists text, patches w' = (patches w ++ [(path, text)])%list)
           /\ exists body, post env AutoFix = Response 200 body
       end.
Proof.
  intros Hdicts.
  destruct w as [t out rep pat log tr].
  unfold generate_auto_fix.
  destruct findings as [|f rest].
  - eexists _, _. repeat split.
  - destruct (issues_text_dicts _ Hdicts) as (issues & ->).
    split_calls; eexists _, _; (split; [reflexivity|]); (split; [reflexivity|]);
      try reflexivity.
    split; [eexists; reflexivity|].
    match goal with
    | H : (_ =? 200)%Z = true |- _ => apply Z.eqb_eq in H; subst
    end.
    eexists. reflexivity.
Qed.

Lemma generate_auto_fix_contained_witness :
  exists r w',
    generate_auto_fix offline_env demo_findings MODEL world0 = (Ok r, w')
    /\ report w' = None
    /\ match r with
       | None => patches w' = []
       | Some path =>
           (exists text, patches w' = [(path, text)])
           /\ exists body, post offline_env AutoFix = Response 200 body
       end.
Proof.
  apply (generate_auto_fix_contained offline_env demo_findings MODEL world0).
  reflexivity.
Defined.

(** X14.  [estimate_effort] never raises on findings that are dictionaries,
    whatever the service does; it writes neither report nor patch. *)
Theorem estimate_effort_contained (env : Env) (findings : list json)
    (model : string) (w : World) :
  forallb is_dict findings = true ->
  exists effort w',
    estimate_effort env findings model w = (Ok effort, w')
    /\ report w' = report w
    /\ patches w' = patches w.
Proof.
  intros Hdicts.
  destruct w as [t out rep pat log tr].
  unfold estimate_effort.
  destruct findings as [|f rest].
  - eexists _, _. repeat split.
  - destruct (issues_text_dicts _ Hdicts) as (issues & ->).
    split_calls; eexists _, _; repeat split.
Qed.

Lemma estimate_effort_contained_witness :
  exists effort w',
    estimate_effort offline_env demo_findings MODEL world0 = (Ok effort, w')
    /\ report w' = None
    /\ patches w' = [].
Proof.
  apply (estimate_effort_contained offline_env demo_findings MODEL world0).
  reflexivity.
Defined.

(** X15.  [document_findings] and [suggest_doc_updates] never raise on findings
    that are dictionaries, whatever the service does and even when the
    report cannot be written; they only ever extend the report and write
    no patch. *)
Theorem documentation_calls_contained (env : Env) (findings : list json)
    (model : string) (w : World) :
  forallb is_dict findings = true ->
  (exists w', document_findings env findings model w = (Ok tt, w')
              /\ report_kept w w' /\ patches w' = patches w)
  /\ (exists w', suggest_doc_updates env findings model w = (Ok tt, w')
                 /\ report_kept w w' /\ patches w' = patches w).
Proof.
  intros Hdicts.
  pose proof (firstn_dicts 10 _ Hdicts) as Hfirst.
  destruct w as [t out rep pat log tr].
  unfold document_findings, suggest_doc_updates.
  destruct findings as [|f rest].
  - split; eexists; (split; [reflexivity|]);
      (split; [apply report_kept_same; reflexivity | reflexivity]).
  - destruct (issues_text_dicts _ Hfirst) as (issues & Hissues).
    destruct (doc_lines_dicts _ Hfirst) as (lines & Hlines).
    split.
    + run. rewrite Hlines. cbv beta iota delta [rbind].
      split_calls; eexists; (split; [reflexivity|]);
        (split; [first [apply report_kept_same; reflexivity
                       | eapply report_kept_append; reflexivity]
                | reflexivity]).
    + run. rewrite Hissues.
      split_calls; eexists; (split; [reflexivity|]);
        (split; [first [apply report_kept_same; reflexivity
                       | eapply report_kept_append; reflexivity]
                | reflexivity]).
Qed.

Lemma documentation_calls_contained_witness :
  (exists w', document_findings healthy_env demo_findings MODEL world0 = (Ok tt, w')
              /\ report_kept world0 w' /\ patches w' = [])
  /\ (exists w', suggest_doc_updates healthy_env demo_findings MODEL world0 = (Ok tt, w')
                 /\ report_kept world0 w' /\ patches w' = []).
Proof.
  apply (documentation_calls_contained healthy_env demo_findings MODEL world0).
  reflexivity.
Defined.

(** X16.  Only the first ten findings reach the two documentation requests: the
    rest of the list changes nothing to what the functions do. *)
Theorem documentation_calls_first_ten (env : Env) (findings : list json)
    (model : string) (w : World) :
  document_findings env findings model w
  = document_findings env (firstn 10 findings) model w
  /\ suggest_doc_updates env findings model w
     = suggest_doc_updates env (firstn 10 findings) model w.
Proof.
  unfold document_findings, suggest_doc_updates.
  destruct findings as [|f rest]; [split; reflexivity|].
  assert (H : firstn 10 (firstn 10 (f :: rest)) = firstn 10 (f :: rest)).
  { rewrite firstn_firstn. reflexivity. }
  change (firstn 10 (f :: rest)) with (f :: firstn 9 rest) in *.
  rewrite H. split; reflexivity.
Qed.

(** *** The stages in sequence *)

(** What the later stages need of each call: it returns, and the report
    is at most extended. *)
Lemma analyze_with_llm_returns (env : Env) (custom_rules : json)
    (findings : list json) (model : string) (w : World) :
  narrative_answers env = true ->
  forallb is_dict findings = true ->
  exists review w',
    analyze_with_llm env custom_rules findings model w = (Ok review, w')
    /\ report w' = report w.
Proof.
  intros Hanswers Hdicts.
  destruct w as [t out rep pat log tr].
  unfold narrative_answers in Hanswers. unfold analyze_with_llm.
  destruct findings as [|f rest].
  - revert Hanswers. split_calls; intros Hanswers; try discriminate;
      eexists _, _; split; reflexivity.
  - destruct (issues_text_dicts _ Hdicts) as (issues & ->).
    revert Hanswers. split_calls; intros Hanswers; try discriminate;
      eexists _, _; split; reflexivity.
Qed.

Lemma generate_auto_fix_returns (env : Env) (findings : list json)
    (model : string) (w : World) :
  forallb is_dict findings = true ->
  exists r w',
    generate_auto_fix env findings model w = (Ok r, w') /\ report w' = report w.
Proof.
  intros Hdicts.
  destruct w as [t out rep pat log tr].
  unfold generate_auto_fix.
  destruct findings as [|f rest]; [eexists _, _; split; reflexivity|].
  destruct (issues_text_dicts _ Hdicts) as (issues & ->).
  split_calls; eexists _, _; split; reflexivity.
Qed.

Lemma estimate_effort_returns (env : Env) (findings : list json)
    (model : string) (w : World) :
  forallb is_dict findings = true ->
  exists effort w',
    estimate_effort env findings model w = (Ok effort, w') /\ report w' = report w.
Proof.
  intros Hdicts.
  destruct w as [t out rep pat log tr].
  unfold estimate_effort.
  destruct findings as [|f rest]; [eexists _, _; split; reflexivity|].
  destruct (issues_text_dicts _ Hdicts) as (issues & ->).
  split_calls; eexists _, _; split; reflexivity.
Qed.

Lemma document_findings_returns (env : Env) (findings : list json)
    (model : string) (w : World) :
  forallb is_dict findings = true ->
  exists w', document_findings env findings model w = (Ok tt, w')
             /\ report_kept w w'.
Proof.
  intros Hdicts.
  pose proof (firstn_dicts 10 _ Hdicts) as Hfirst.
  destruct w as [t out rep pat log tr].
  unfold document_findings.
  destruct findings as [|f rest].
  - eexists. split; [reflexivity | apply report_kept_same; reflexivity].
  - destruct (doc_lines_dicts _ Hfirst) as (lines & Hlines).
    run. rewrite Hlines. cbv beta iota delta [rbind].
    split_calls; eexists; (split; [reflexivity|]);
      first [apply report_kept_same; reflexivity
            | eapply report_kept_append; reflexivity].
Qed.

Lemma suggest_doc_updates_returns (env : Env) (findings : list json)
    (model : string) (w : World) :
  forallb is_dict findings = true ->
  exists w', suggest_doc_updates env findings model w = (Ok tt, w')
             /\ report_kept w w'.
Proof.
  intros Hdicts.
  pose proof (firstn_dicts 10 _ Hdicts) as Hfirst.
  destruct w as [t out rep pat log tr].
  unfold suggest_doc_updates.
  destruct findings as [|f rest].
  - eexists. split; [reflexivity | apply report_kept_same; reflexivity].
  - destruct (issues_text_dicts _ Hfirst) as (issues & Hissues).
    run. rewrite Hissues.
    split_calls; eexists; (split; [reflexivity|]);
      first [apply report_kept_same; reflexivity
            | eapply report_kept_append; reflexivity].
Qed.

Lemma add_comment_section_returns (env : Env) (findings : list json) (w : World) :
  can_write env REPORT = true ->
  forallb has_text_message findings = true ->
  exists w', add_comment_section env findings w = (Ok tt, w')
             /\ report_kept w w'.
Proof.
  intros Hwrite Htexts.
  destruct w as [t out rep pat log tr].
  unfold add_comment_section.
  destruct findings as [|f rest].
  - eexists. split; [reflexivity | apply report_kept_same; reflexivity].
  - unfold comment_section.
    run. rewrite (comment_section_loop _ Htexts). run. rewrite Hwrite.
    eexists. split; [reflexivity | eapply report_kept_append; reflexivity].
Qed.

Lemma comment_section_loop_raises (findings : list json) :
  forallb is_dict findings = true ->
  forallb has_text_message findings = false ->
  forall (start : Z) (section : string),
    rfold (fun section (p : Z * json) =>
             rbind (comment_entry (fst p) (snd p)) (fun entry =>
             Ok (section ++ entry)%string))
          (enumerate start findings) section
    = Raise AttributeError.
Proof.
  induction findings as [|f rest IH]; intros Hdicts Htexts start section;
    [discriminate|].
  simpl in Hdicts, Htexts. apply andb_true_iff in Hdicts as [Hf Hrest].
  simpl. destruct (has_text_message f) eqn:Htext.
  - rewrite (comment_entry_value start f Htext). simpl.
    apply IH; assumption.
  - destruct f as [| | | | |fields]; try discriminate.
    unfold has_text_message, text_message in Htext.
    unfold comment_entry. simpl.
    destruct (lookup "message" fields) as [m|]; [|discriminate].
    destruct m; try discriminate; reflexivity.
Qed.

(** X17.  A finding whose message is not a text stops [add_comment_section]:
    [strip] is called on it and raises [AttributeError], before anything
    is written to the report. *)
Theorem add_comment_section_needs_text_messages (env : Env)
    (findings : list json) (w : World) :
  forallb is_dict findings = true ->
  forallb has_text_message findings = false ->
  exists w',
    add_comment_section env findings w = (Raise AttributeError, w')
    /\ report w' = report w.
Proof.
  intros Hdicts Htexts.
  destruct w as [t out rep pat log tr].
  unfold add_comment_section.
  destruct findings as [|f rest]; [discriminate|].
  unfold comment_section.
  run. rewrite (comment_section_loop_raises _ Hdicts Htexts).
  eexists. split; reflexivity.
Qed.

Lemma add_comment_section_needs_text_messages_witness :
  exists w',
    add_comment_section healthy_env
      [finding "ruff" (JStr "sample/app.py") JNull (JNum 3)] world0
    = (Raise AttributeError, w')
    /\ report w' = None.
Proof.
  apply (add_comment_section_needs_text_messages healthy_env
           [finding "ruff" (JStr "sample/app.py") JNull (JNum 3)] world0);
    reflexivity.
Defined.

(** The narrative text depends on the answer of the service alone. *)
Lemma analyze_with_llm_review (env : Env) (custom_rules : json)
    (findings : list json) (model : string) :
  narrative_answers env = true ->
  forallb is_dict findings = true ->
  exists review,
    forall w, exists w',
      analyze_with_llm env custom_rules findings model w = (Ok review, w')
      /\ report w' = report w.
Proof.
  intros Hanswers Hdicts.
  unfold narrative_answers in Hanswers. unfold analyze_with_llm.
  assert (Hissues : exists issues,
             match findings with
             | [] => Ok "No issues were found, but please review the code quality overall."
             | _ :: _ => issues_text findings
             end = Ok issues).
  { destruct findings; [eexists; reflexivity | apply issues_text_dicts; exact Hdicts]. }
  destruct Hissues as (issues & ->).
  destruct (post env Narrative) as [|status_code text] eqn:Hpost; [discriminate|].
  destruct (status_code =? 200)%Z eqn:Hstatus.
  - destruct (json_loads env text) as [data|] eqn:Hjson; [|discriminate].
    destruct (message_content data) as [review|] eqn:Hbody; [|discriminate].
    exists review. intros [t out rep pat log tr].
    run. rewrite Hpost. run. rewrite Hstatus. cbn [negb]. run.
    rewrite Hjson. run. rewrite Hbody.
    eexists. split; reflexivity.
  - exists "Error: LLM could not generate a response.".
    intros [t out rep pat log tr].
    run. rewrite Hpost. run. rewrite Hstatus. cbn [negb]. run.
    eexists. split; reflexivity.
Qed.

Lemma heading_last (text heading rest : string) :
  (text ++ RULE ++ heading ++ rest = (text ++ RULE) ++ heading ++ rest)%string.
Proof. rewrite !append_assoc. reflexivity. Qed.

Lemma heading_then_more (text heading rest more : string) :
  ((text ++ RULE ++ heading ++ rest) ++ more
   = (text ++ RULE) ++ heading ++ rest ++ more)%string.
Proof. rewrite !append_assoc. reflexivity. Qed.

(** Bring the next stage of the run to its result, with what is known
    about the report. *)
Ltac stage lemma :=
  let w2 := fresh "w" in
  let Hrun := fresh "Hrun" in
  let Hrep := fresh "Hrep" in
  match goal with
  | |- context [generate_auto_fix ?e ?fs ?m ?w1] =>
      destruct (lemma e fs m w1) as (? & w2 & Hrun & Hrep)
  | |- context [estimate_effort ?e ?fs ?m ?w1] =>
      destruct (lemma e fs m w1) as (? & w2 & Hrun & Hrep)
  | |- context [document_findings ?e ?fs ?m ?w1] =>
      destruct (lemma e fs m w1) as (w2 & Hrun & Hrep)
  | |- context [suggest_doc_updates ?e ?fs ?m ?w1] =>
      destruct (lemma e fs m w1) as (w2 & Hrun & Hrep)
  | |- context [add_comment_section ?e ?fs ?w1] =>
      destruct (lemma e fs w1) as (w2 & Hrun & Hrep)
  end;
  [try assumption .. |];
  rewrite Hrun; clear Hrun;
  destruct w2 as [? ? ? ? ? ?];
  first [ destruct (Hrep _ eq_refl) as (? & Hrep'); clear Hrep;
          cbn [report] in Hrep'; subst
        | cbn [report] in Hrep; subst ];
  run.

Lemma review_and_report_runs (env : Env) (custom_rules : json)
    (stats : list (string * Z)) (findings : list json) (w : World) :
  narrative_answers env = true ->
  can_write env REPORT = true ->
  forallb is_dict findings = true ->
  forallb has_text_message findings = true ->
  exists review w',
    review_and_report env custom_rules stats findings w = (Ok tt, w')
    /\ (forall w0, fst (analyze_with_llm env custom_rules findings MODEL w0) = Ok review)
    /\ (exists more, report w' = Some (review ++ more))
    /\ (exists before after,
          report w' = Some (before ++ "### Performance Summary" ++ after))
    /\ (exists out, stdout w' = (out ++ ["Code review complete!"])%list).
Proof.
  intros Hanswers Hwrite Hdicts Htexts.
  destruct (analyze_with_llm_review env custom_rules findings MODEL Hanswers Hdicts)
    as (review & Hreview).
  exists review.
  destruct w as [t out rep pat log tr].
  unfold review_and_report. run. rewrite !Hwrite.
  match goal with
  | |- context [analyze_with_llm env custom_rules findings MODEL ?w1] =>
      destruct (Hreview w1) as (w2 & Hrun & _); rewrite Hrun; clear Hrun;
      destruct w2 as [? ? ? ? ? ?]
  end.
  run.
  stage generate_auto_fix_returns.
  stage estimate_effort_returns.
  stage add_comment_section_returns.
  stage document_findings_returns.
  stage suggest_doc_updates_returns.
  match goal with
  | |- context [match ?l with [] => _ | _ :: _ => _ end] =>
      is_var l; destruct l
  end; run.
  - eexists. split; [reflexivity|]. split.
    { intros w0. destruct (Hreview w0) as (w2 & -> & _). reflexivity. }
    cbn [report stdout]. split; [|split].
    + rewrite !append_assoc. eexists. reflexivity.
    + eexists _, _. f_equal. apply heading_last.
    + eexists. reflexivity.
  - eexists. split; [reflexivity|]. split.
    { intros w0. destruct (Hreview w0) as (w2 & -> & _). reflexivity. }
    cbn [report stdout]. split; [|split].
    + rewrite !append_assoc. eexists. reflexivity.
    + eexists _, _. f_equal. apply heading_then_more.
    + eexists. reflexivity.
Qed.

(** X18.  STEPS 4 to 10.  Once the narrative request is answered, the run goes
    to its end whatever the four other requests do, provided the report
    can be written and every finding is a dictionary with a text message:
    the report starts with the narrative text, holds the performance
    summary, and the last console line is the closing one. *)
Theorem review_and_report_completes (env : Env) (custom_rules : json)
    (stats : list (string * Z)) (findings : list json) (w : World) :
  narrative_answers env = true ->
  can_write env REPORT = true ->
  forallb is_dict findings = true ->
  forallb has_text_message findings = true ->
  exists review w',
    review_and_report env custom_rules stats findings w = (Ok tt, w')
    /\ (forall w0, fst (analyze_with_llm env custom_rules findings MODEL w0) = Ok review)
    /\ (exists more, report w' = Some (review ++ more))
    /\ (exists before after,
          report w' = Some (before ++ "### Performance Summary" ++ after))
    /\ (exists out, stdout w' = (out ++ ["Code review complete!"])%list).
Proof. apply review_and_report_runs. Qed.

Lemma review_and_report_completes_witness :
  exists review w',
    review_and_report offline_docs_env (JObj []) [] demo_findings world0 = (Ok tt, w')
    /\ (forall w0,
          fst (analyze_with_llm offline_docs_env (JObj []) demo_findings MODEL w0)
          = Ok review)
    /\ (exists more, report w' = Some (review ++ more))
    /\ (exists before after,
          report w' = Some (before ++ "### Performance Summary" ++ after))
    /\ (exists out, stdout w' = (out ++ ["Code review complete!"])%list).
Proof.
  apply (review_and_report_completes offline_docs_env (JObj []) [] demo_findings world0);
    reflexivity.
Defined.

Lemma aggregated_dicts (env : Env) (changed_files : list string) :
  forallb is_dict (aggregated env changed_files) = true.
Proof.
  apply forallb_forall. intros f Hin. unfold aggregated in Hin.
  apply in_app_or in Hin as [Hin | Hin].
  - unfold analyzer_a_findings in Hin.
    apply in_flat_map in Hin as (item & _ & Hin).
    apply in_map_iff in Hin as (msg & <- & _). reflexivity.
  - apply in_app_or in Hin as [Hin | Hin].
    + unfold analyzer_b_findings in Hin.
      apply in_map_iff in Hin as (issue & <- & _). reflexivity.
    + destruct Hin as [<- | []]. reflexivity.
Qed.

(** X19.  The whole of [main].  When the selected files get conforming analyzer
    output whose messages are texts, the narrative request is answered
    and the report can be written, [main] returns normally, with a report
    that holds the performance summary. *)
Theorem main_completes (env : Env) (custom_rules : json) (mode : string)
    (file_target : option string) (changed_files : list string) (w : World) :
  (forall w0, fst (select_files env mode file_target w0) = Ok (Some changed_files)) ->
  forallb (conforming env) changed_files = true ->
  forallb has_text_message (aggregated env changed_files) = true ->
  narrative_answers env = true ->
  can_write env REPORT = true ->
  exists w',
    main env custom_rules mode file_target w = (Ok tt, w')
    /\ (exists before after,
          report w' = Some (before ++ "### Performance Summary" ++ after))
    /\ (exists out, stdout w' = (out ++ ["Code review complete!"])%list).
Proof.
  intros Hselect Hconforming Htexts Hanswers Hwrite.
  unfold main. unfold bind at 1. unfold print at 1. cbv beta iota.
  match goal with
  | |- context [bind (select_files env mode file_target) ?k ?w1] =>
      pose proof (Hselect w1) as Hsel;
      destruct (select_files env mode file_target w1) as [[selected|e] w2] eqn:Hrun;
      cbn [fst] in Hsel; inversion Hsel; subst;
      rewrite (bind_ok _ _ _ _ _ Hrun)
  end.
  destruct (collect_findings_ok env changed_files w2 Hconforming) as (a & w3 & Hcollect).
  rewrite (bind_ok _ _ _ _ _ Hcollect). cbn [fst snd].
  destruct (review_and_report_runs env custom_rules (performance_stats a)
              (aggregated env changed_files) w3 Hanswers Hwrite
              (aggregated_dicts env changed_files) Htexts)
    as (review & w' & Hreport & _ & _ & Hsummary & Hout).
  exists w'. split; [exact Hreport|]. split; assumption.
Qed.

Lemma main_completes_witness :
  exists w',
    main offline_docs_env (JObj []) "file" (Some "sample/app.py") world0 = (Ok tt, w')
    /\ (exists before after,
          report w' = Some (before ++ "### Performance Summary" ++ after))
    /\ (exists out, stdout w' = (out ++ ["Code review complete!"])%list).
Proof.
  apply (main_completes offline_docs_env (JObj []) "file" (Some "sample/app.py")
           ["sample/app.py"] world0);
    reflexivity.
Defined.

(** The narrative call, with everything it leaves behind: one request,
    and the report and the patch files as they were. *)
Lemma analyze_with_llm_review_frame (env : Env) (custom_rules : json)
    (findings : list json) (model : string) :
  narrative_answers env = true ->
  forallb is_dict findings = true ->
  exists review p,
    forall w, exists w',
      analyze_with_llm env custom_rules findings model w = (Ok review, w')
      /\ report w' = report w
      /\ patches w' = patches w
      /\ trace w' = (trace w ++ [HttpPost Narrative model p])%list.
Proof.
  intros Hanswers Hdicts.
  unfold narrative_answers in Hanswers. unfold analyze_with_llm.
  assert (Hissues : exists issues,
             match findings with
             | [] => Ok "No issues were found, but please review the code quality overall."
             | _ :: _ => issues_text findings
             end = Ok issues).
  { destruct findings; [eexists; reflexivity | apply issues_text_dicts; exact Hdicts]. }
  destruct Hissues as (issues & ->).
  destruct (post env Narrative) as [|status_code text] eqn:Hpost; [discriminate|].
  destruct (status_code =? 200)%Z eqn:Hstatus.
  - destruct (json_loads env text) as [data|] eqn:Hjson; [|discriminate].
    destruct (message_content data) as [review|] eqn:Hbody; [|discriminate].
    exists review, (mkPrompt (Some custom_rules) issues).
    intros [t out rep pat log tr].
    run. rewrite Hpost. run. rewrite Hstatus. cbn [negb]. run.
    rewrite Hjson. run. rewrite Hbody.
    eexists. repeat split.
  - exists "Error: LLM could not generate a response.",
           (mkPrompt (Some custom_rules) issues).
    intros [t out rep pat log tr].
    run. rewrite Hpost. run. rewrite Hstatus. cbn [negb]. run.
    eexists. repeat split.
Qed.

(** X20.  When the report cannot be written the run stops at [save_report]: the
    narrative text is lost and nothing after STEP 4 is attempted.  The
    only external call made is the narrative request, no patch file is
    written, and the console ends with the closing line of the timed
    narrative stage. *)
Theorem unwritable_report_aborts (env : Env) (custom_rules : json)
    (stats : list (string * Z)) (findings : list json) (w : World) :
  narrative_answers env = true ->
  can_write env REPORT = false ->
  forallb is_dict findings = true ->
  exists w' p,
    review_and_report env custom_rules stats findings w = (Raise OSError, w')
    /\ report w' = report w
    /\ patches w' = patches w
    /\ trace w' = (trace w ++ [HttpPost Narrative MODEL p])%list
    /\ exists out seconds,
         stdout w'
         = (out ++ ["Finished AI Analysis in " ++ seconds ++ " seconds."]%string)%list.
Proof.
  intros Hanswers Hwrite Hdicts.
  destruct (analyze_with_llm_review_frame env custom_rules findings MODEL
              Hanswers Hdicts) as (review & p & Hreview).
  destruct w as [t out rep pat log tr].
  unfold review_and_report. run. rewrite !Hwrite.
  match goal with
  | |- context [analyze_with_llm env custom_rules findings MODEL ?w1] =>
      destruct (Hreview w1) as (w2 & Hrun & Hrep & Hpat & Htr);
      rewrite Hrun; clear Hrun;
      destruct w2 as [? ? ? ? ? ?];
      cbn [report patches trace] in Hrep, Hpat, Htr; subst
  end.
  run. eexists _, p. split; [reflexivity|].
  repeat (split; [reflexivity|]).
  eexists _, _. reflexivity.
Qed.

Lemma unwritable_report_aborts_witness :
  exists w' p,
    review_and_report read_only_env (JObj []) [] demo_findings world0
    = (Raise OSError, w')
    /\ report w' = None
    /\ patches w' = []
    /\ trace w' = [HttpPost Narrative MODEL p]
    /\ exists out seconds,
         stdout w'
         = (out ++ ["Finished AI Analysis in " ++ seconds ++ " seconds."]%string)%list.
Proof.
  apply (unwritable_report_aborts read_only_env (JObj []) [] demo_findings world0);
    reflexivity.
Defined.

(** *** What reaches the usage log *)

(** X21.  [analyze_with_llm] records its time exactly when the reply has status
    200 and a body that is JSON: before it looks into the body, and not
    at all for another status or a transport failure. *)
Theorem narrative_tracking (env : Env) (custom_rules : json)
    (findings : list json) (model : string) (w : World) :
  forallb is_dict findings = true ->
  let log' := ai_usage_log (snd (analyze_with_llm env custom_rules findings model w)) in
  match post env Narrative with
  | Response status_code text =>
      if (status_code =? 200)%Z then
        match json_loads env text with
        | Some _ => exists d, log' = (ai_usage_log w ++ [("analyze_with_llm", d)])%list
        | None => log' = ai_usage_log w
        end
      else log' = ai_usage_log w
  | TransportFailure => log' = ai_usage_log w
  end.
Proof.
  intros Hdicts.
  destruct w as [t out rep pat log tr].
  unfold analyze_with_llm.
  destruct findings as [|f rest].
  - split_calls; try reflexivity; eexists; reflexivity.
  - destruct (issues_text_dicts _ Hdicts) as (issues & ->).
    split_calls; try reflexivity; eexists; reflexivity.
Qed.

Lemma narrative_tracking_witness :
  exists d,
    ai_usage_log (snd (analyze_with_llm healthy_env (JObj []) demo_findings MODEL world0))
    = [("analyze_with_llm", d)].
Proof.
  apply (narrative_tracking healthy_env (JObj []) demo_findings MODEL world0).
  reflexivity.
Defined.

(** X22.  [document_findings] and [suggest_doc_updates] record their time after
    a reply with status 200 and after an exception alike, and skip it
    only for a reply with another status, where they return early. *)
Theorem documentation_calls_tracking (env : Env) (f : json) (rest : list json)
    (model : string) (w : World) :
  forallb is_dict (f :: rest) = true ->
  (let log' := ai_usage_log (snd (document_findings env (f :: rest) model w)) in
   match post env Document with
   | Response status_code _ =>
       if (status_code =? 200)%Z
       then exists d, log' = (ai_usage_log w ++ [("document_findings", d)])%list
       else log' = ai_usage_log w
   | TransportFailure =>
       exists d, log' = (ai_usage_log w ++ [("document_findings", d)])%list
   end)
  /\ (let log' := ai_usage_log (snd (suggest_doc_updates env (f :: rest) model w)) in
      match post env SuggestDocs with
      | Response status_code _ =>
          if (status_code =? 200)%Z
          then exists d, log' = (ai_usage_log w ++ [("suggest_doc_updates", d)])%list
          else log' = ai_usage_log w
      | TransportFailure =>
          exists d, log' = (ai_usage_log w ++ [("suggest_doc_updates", d)])%list
      end).
Proof.
  intros Hdicts.
  pose proof (firstn_dicts 10 _ Hdicts) as Hfirst.
  destruct (issues_text_dicts _ Hfirst) as (issues & Hissues).
  destruct (doc_lines_dicts _ Hfirst) as (lines & Hlines).
  destruct w as [t out rep pat log tr].
  unfold document_findings, suggest_doc_updates. split.
  - run. rewrite Hlines. cbv beta iota delta [rbind].
    split_calls; try reflexivity; eexists; reflexivity.
  - run. rewrite Hissues.
    split_calls; try reflexivity; eexists; reflexivity.
Qed.

Lemma documentation_calls_tracking_witness :
  (exists d,
     ai_usage_log (snd (document_findings offline_env demo_findings MODEL world0))
     = [("document_findings", d)])
  /\ (exists d,
        ai_usage_log (snd (suggest_doc_updates offline_env demo_findings MODEL world0))
        = [("suggest_doc_updates", d)]).
Proof.
  apply (documentation_calls_tracking offline_env
           (JObj [("tool", JStr "ruff"); ("filename", JStr "sample/app.py");
                  ("message", JStr "unused import"); ("line", JNum 1)])
           (tl demo_findings) MODEL world0).
  reflexivity.
Defined.

(** *** Records that are not dictionaries *)

Lemma rfold_raises_later {A B} (f : A -> B -> result A) (xs : list B) :
  (forall acc, exists e, rfold f xs acc = Raise e) ->
  forall x acc, exists e, rfold f (x :: xs) acc = Raise e.
Proof.
  intros H x acc. simpl. destruct (f acc x) as [acc'|e]; simpl.
  - apply H.
  - exists e. reflexivity.
Qed.

Lemma gather_ruff_raises (ruff : list json) (item : json) :
  In item ruff -> is_dict item = false ->
  forall acc, exists e, gather_ruff ruff acc = Raise e.
Proof.
  unfold gather_ruff. intros Hin Hitem.
  induction ruff as [|x rest IH]; [contradiction|].
  destruct Hin as [-> | Hin].
  - intros acc. simpl.
    destruct item; try discriminate; eexists; reflexivity.
  - apply rfold_raises_later. apply IH. exact Hin.
Qed.

Lemma gather_bandit_raises (bandit : list json) (issue : json) :
  In issue bandit -> is_dict issue = false ->
  forall acc, exists e, gather_bandit bandit acc = Raise e.
Proof.
  unfold gather_bandit. intros Hin Hissue.
  induction bandit as [|x rest IH]; [contradiction|].
  destruct Hin as [-> | Hin].
  - intros acc. simpl.
    destruct issue; try discriminate; eexists; reflexivity.
  - apply rfold_raises_later. apply IH. exact Hin.
Qed.

(** X10.  STEP 3 has no [try]: one analyzer record that is not a dictionary (a
    number or a text in Ruff's array or in Bandit's [results]) makes the
    gathering raise, before the architecture check and with the world
    unchanged. *)
Theorem gather_findings_needs_records (env : Env) (a : analysis) (record : json)
    (w : World) :
  In record (all_ruff_results a) \/ In record (all_bandit_results a) ->
  is_dict record = false ->
  exists e, gather_findings env a w = (Raise e, w).
Proof.
  intros Hin Hrecord. unfold gather_findings.
  cbv beta iota delta [bind lift].
  destruct Hin as [Hin | Hin].
  - destruct (gather_ruff_raises _ _ Hin Hrecord []) as (e & ->).
    exists e. reflexivity.
  - destruct (gather_ruff (all_ruff_results a) []) as [fs|e].
    + destruct (gather_bandit_raises _ _ Hin Hrecord fs) as (e & ->).
      exists e. reflexivity.
    + exists e. reflexivity.
Qed.

Lemma gather_findings_needs_records_witness :
  exists e,
    gather_findings healthy_env (mkAnalysis [] [JStr "E501"] []) world0
    = (Raise e, world0).
Proof.
  apply (gather_findings_needs_records healthy_env
           (mkAnalysis [] [JStr "E501"] []) (JStr "E501") world0).
  - left. left. reflexivity.
  - reflexivity.
Defined.

(** *** Changed files are Python files *)

Lemma length_append (a b : string) :
  String.length (a ++ b) = String.length a + String.length b.
Proof. induction a as [|c a IH]; simpl; [reflexivity | rewrite IH; reflexivity]. Qed.

Lemma substring_after (a b : string) :
  substring (String.length a) (String.length b) (a ++ b) = b.
Proof. induction a as [|c a IH]; simpl; [apply substring_all | exact IH]. Qed.

Lemma endswith_append (a suffix : string) : endswith (a ++ suffix) suffix = true.
Proof.
  unfold endswith. rewrite length_append.
  replace (String.length a + String.length suffix - String.length suffix)
    with (String.length a) by lia.
  rewrite substring_after, String.eqb_refl.
  replace (String.length suffix <=? String.length a + String.length suffix)%nat
    with true; [reflexivity|].
  symmetry. apply Nat.leb_le. lia.
Qed.

Lemma substring_split (s : string) :
  forall k, k <= String.length s ->
            s = (substring 0 k s ++ substring k (String.length s - k) s)%string.
Proof.
  induction s as [|c s IH]; intros k Hk.
  - destruct k; reflexivity.
  - destruct k as [|k]; simpl.
    + rewrite substring_all. reflexivity.
    + simpl in Hk. rewrite <- (IH k); [reflexivity | lia].
Qed.

Lemma endswith_inv (s suffix : string) :
  endswith s suffix = true -> exists a, s = (a ++ suffix)%string.
Proof.
  unfold endswith. intros H. apply andb_true_iff in H as [Hle Heq].
  apply Nat.leb_le in Hle. apply String.eqb_eq in Heq.
  remember (String.length suffix) as m eqn:Hm. clear Hm.
  exists (substring 0 (String.length s - m) s).
  rewrite <- Heq.
  pose proof (substring_split s (String.length s - m)) as Hsplit.
  replace (String.length s - (String.length s - m)) with m in Hsplit by lia.
  apply Hsplit. lia.
Qed.

Lemma list_ascii_of_append (a b : string) :
  list_ascii_of_string (a ++ b)
  = (list_ascii_of_string a ++ list_ascii_of_string b)%list.
Proof. induction a as [|c a IH]; simpl; [reflexivity | rewrite IH; reflexivity]. Qed.

Lemma string_of_list_append (l1 l2 : list ascii) :
  string_of_list_ascii (l1 ++ l2)
  = (string_of_list_ascii l1 ++ string_of_list_ascii l2)%string.
Proof. induction l1 as [|c l1 IH]; simpl; [reflexivity | rewrite IH; reflexivity]. Qed.

Lemma rev_string_append (a b : string) :
  rev_string (a ++ b) = (rev_string b ++ rev_string a)%string.
Proof.
  unfold rev_string.
  rewrite list_ascii_of_append, rev_app_distr, string_of_list_append. reflexivity.
Qed.

Lemma rev_string_involutive (s : string) : rev_string (rev_string s) = s.
Proof.
  unfold rev_string.
  rewrite list_ascii_of_string_of_list_ascii, rev_involutive.
  apply string_of_list_ascii_of_string.
Qed.

Lemma lstrip_keeps_py (a : string) :
  exists a', lstrip (a ++ ".py") = (a' ++ ".py")%string.
Proof.
  induction a as [|c a IH].
  - exists "". reflexivity.
  - simpl. destruct (is_space c).
    + exact IH.
    + exists (String c a). reflexivity.
Qed.

(** Stripping a name keeps its extension. *)
Lemma strip_keeps_py (s : string) :
  endswith s ".py" = true -> endswith (strip s) ".py" = true.
Proof.
  intros H. apply endswith_inv in H as (a & ->).
  unfold strip. destruct (lstrip_keeps_py a) as (a' & ->).
  rewrite rev_string_append.
  change (rev_string ".py") with "yp.".
  change (lstrip ("yp." ++ rev_string a')) with ("yp." ++ rev_string a')%string.
  rewrite rev_string_append, rev_string_involutive.
  change (rev_string "yp.") with ".py".
  apply endswith_append.
Qed.

(** X2.  Every file [get_changed_files] returns has the extension [.py]: the
    lines of [git diff] are filtered on it before they are stripped, and
    stripping keeps it. *)
Theorem changed_files_are_python (env : Env) (files : list string) (w w' : World) :
  get_changed_files env w = (Ok files, w') ->
  Forall (fun f => endswith f ".py" = true) files.
Proof.
  unfold get_changed_files, subprocess_run. run.
  destruct (proc env ["git"; "diff"; "--name-only"; "HEAD"] None) as [text|];
    intros H; inversion H; subst; [|constructor].
  apply Forall_map. apply Forall_forall. intros f Hin.
  apply filter_In in Hin as [_ Hpy]. apply strip_keeps_py. exact Hpy.
Qed.

Lemma changed_files_are_python_witness :
  Forall (fun f => endswith f ".py" = true) ["sample/app.py"; "tools/lint.py"].
Proof.
  apply (changed_files_are_python changed_env ["sample/app.py"; "tools/lint.py"]
           world0
           (mkWorld 170000000025%Z [] None [] []
                    [Subprocess ["git"; "diff"; "--name-only"; "HEAD"] None])).
  reflexivity.
Defined.

End Orchestrator.
